(** * Blackboard enrollment report: the validation, join and filter pipeline

    A shallow embedding of [scripts/report_generator.py].  Python values
    parsed from JSON are an inductive type, pydantic validation is a
    function into a result type that collects the field errors, the pandas
    frames are lists of typed rows, and [generate_report] is a function
    over the state of the output directory in a small state-and-exception
    monad. *)

From Stdlib Require Import String Ascii NArith ZArith Bool List Lia.
Import ListNotations.

Set Implicit Arguments.
Set Warnings "-register-all".

(** ** Python strings *)

Module PyStr.

(** A [str] is a sequence of Unicode code points. *)
Definition t := list N.

(** An ASCII literal of the source. *)
Definition str (s : string) : t := map N_of_ascii (list_ascii_of_string s).

Fixpoint eqb (a b : t) : bool :=
  match a, b with
  | [], [] => true
  | x :: a', y :: b' => N.eqb x y && eqb a' b'
  | _, _ => false
  end.

(** [x in {...}] for a set of string literals. *)
Definition mem (x : t) (set : list t) : bool := existsb (eqb x) set.

(** The code points [str.isspace] accepts ([Py_UNICODE_ISSPACE]). *)
Definition is_space (c : N) : bool :=
  ((9 <=? c) && (c <=? 13) || (28 <=? c) && (c <=? 32)
   || (c =? 133) || (c =? 160) || (c =? 5760)
   || (8192 <=? c) && (c <=? 8202)
   || (c =? 8232) || (c =? 8233) || (c =? 8239) || (c =? 8287)
   || (c =? 12288))%N.

Fixpoint lstrip (s : t) : t :=
  match s with
  | c :: s' => if is_space c then lstrip s' else s
  | [] => []
  end.

Definition rstrip (s : t) : t := rev (lstrip (rev s)).

(** [s.strip()] *)
Definition strip (s : t) : t := rstrip (lstrip s).

(** The case tables of Unicode 14.0, as CPython 3.11 has them.

    The simple lowercase mappings, in runs [(first, last, step, image)]
    sorted by [first]: the code points [first], [first + step], ... up to
    [last] map to [image] plus their distance from [first]. *)
Definition lower_runs : list (N * N * N * N) :=
  [
   (65, 90, 1, 97); (192, 214, 1, 224); (216, 222, 1, 248);
   (256, 302, 2, 257); (306, 310, 2, 307); (313, 327, 2, 314);
   (330, 374, 2, 331); (376, 376, 1, 255); (377, 381, 2, 378);
   (385, 385, 1, 595); (386, 388, 2, 387); (390, 390, 1, 596);
   (391, 391, 1, 392); (393, 394, 1, 598); (395, 395, 1, 396);
   (398, 398, 1, 477); (399, 399, 1, 601); (400, 400, 1, 603);
   (401, 401, 1, 402); (403, 403, 1, 608); (404, 404, 1, 611);
   (406, 406, 1, 617); (407, 407, 1, 616); (408, 408, 1, 409);
   (412, 412, 1, 623); (413, 413, 1, 626); (415, 415, 1, 629);
   (416, 420, 2, 417); (422, 422, 1, 640); (423, 423, 1, 424);
   (425, 425, 1, 643); (428, 428, 1, 429); (430, 430, 1, 648);
   (431, 431, 1, 432); (433, 434, 1, 650); (435, 437, 2, 436);
   (439, 439, 1, 658); (440, 440, 1, 441); (444, 444, 1, 445);
   (452, 452, 1, 454); (453, 453, 1, 454); (455, 455, 1, 457);
   (456, 456, 1, 457); (458, 458, 1, 460); (459, 475, 2, 460);
   (478, 494, 2, 479); (497, 497, 1, 499); (498, 500, 2, 499);
   (502, 502, 1, 405); (503, 503, 1, 447); (504, 542, 2, 505);
   (544, 544, 1, 414); (546, 562, 2, 547); (570, 570, 1, 11365);
   (571, 571, 1, 572); (573, 573, 1, 410); (574, 574, 1, 11366);
   (577, 577, 1, 578); (579, 579, 1, 384); (580, 580, 1, 649);
   (581, 581, 1, 652); (582, 590, 2, 583); (880, 882, 2, 881);
   (886, 886, 1, 887); (895, 895, 1, 1011); (902, 902, 1, 940);
   (904, 906, 1, 941); (908, 908, 1, 972); (910, 911, 1, 973);
   (913, 929, 1, 945); (931, 939, 1, 963); (975, 975, 1, 983);
   (984, 1006, 2, 985); (1012, 1012, 1, 952); (1015, 1015, 1, 1016);
   (1017, 1017, 1, 1010); (1018, 1018, 1, 1019); (1021, 1023, 1, 891);
   (1024, 1039, 1, 1104); (1040, 1071, 1, 1072); (1120, 1152, 2, 1121);
   (1162, 1214, 2, 1163); (1216, 1216, 1, 1231); (1217, 1229, 2, 1218);
   (1232, 1326, 2, 1233); (1329, 1366, 1, 1377); (4256, 4293, 1, 11520);
   (4295, 4295, 1, 11559); (4301, 4301, 1, 11565); (5024, 5103, 1, 43888);
   (5104, 5109, 1, 5112); (7312, 7354, 1, 4304); (7357, 7359, 1, 4349);
   (7680, 7828, 2, 7681); (7838, 7838, 1, 223); (7840, 7934, 2, 7841);
   (7944, 7951, 1, 7936); (7960, 7965, 1, 7952); (7976, 7983, 1, 7968);
   (7992, 7999, 1, 7984); (8008, 8013, 1, 8000); (8025, 8031, 2, 8017);
   (8040, 8047, 1, 8032); (8072, 8079, 1, 8064); (8088, 8095, 1, 8080);
   (8104, 8111, 1, 8096); (8120, 8121, 1, 8112); (8122, 8123, 1, 8048);
   (8124, 8124, 1, 8115); (8136, 8139, 1, 8050); (8140, 8140, 1, 8131);
   (8152, 8153, 1, 8144); (8154, 8155, 1, 8054); (8168, 8169, 1, 8160);
   (8170, 8171, 1, 8058); (8172, 8172, 1, 8165); (8184, 8185, 1, 8056);
   (8186, 8187, 1, 8060); (8188, 8188, 1, 8179); (8486, 8486, 1, 969);
   (8490, 8490, 1, 107); (8491, 8491, 1, 229); (8498, 8498, 1, 8526);
   (8544, 8559, 1, 8560); (8579, 8579, 1, 8580); (9398, 9423, 1, 9424);
   (11264, 11311, 1, 11312); (11360, 11360, 1, 11361);
   (11362, 11362, 1, 619); (11363, 11363, 1, 7549); (11364, 11364, 1, 637);
   (11367, 11371, 2, 11368); (11373, 11373, 1, 593);
   (11374, 11374, 1, 625); (11375, 11375, 1, 592); (11376, 11376, 1, 594);
   (11378, 11378, 1, 11379); (11381, 11381, 1, 11382);
   (11390, 11391, 1, 575); (11392, 11490, 2, 11393);
   (11499, 11501, 2, 11500); (11506, 11506, 1, 11507);
   (42560, 42604, 2, 42561); (42624, 42650, 2, 42625);
   (42786, 42798, 2, 42787); (42802, 42862, 2, 42803);
   (42873, 42875, 2, 42874); (42877, 42877, 1, 7545);
   (42878, 42886, 2, 42879); (42891, 42891, 1, 42892);
   (42893, 42893, 1, 613); (42896, 42898, 2, 42897);
   (42902, 42920, 2, 42903); (42922, 42922, 1, 614);
   (42923, 42923, 1, 604); (42924, 42924, 1, 609); (42925, 42925, 1, 620);
   (42926, 42926, 1, 618); (42928, 42928, 1, 670); (42929, 42929, 1, 647);
   (42930, 42930, 1, 669); (42931, 42931, 1, 43859);
   (42932, 42946, 2, 42933); (42948, 42948, 1, 42900);
   (42949, 42949, 1, 642); (42950, 42950, 1, 7566);
   (42951, 42953, 2, 42952); (42960, 42960, 1, 42961);
   (42966, 42968, 2, 42967); (42997, 42997, 1, 42998);
   (65313, 65338, 1, 65345); (66560, 66599, 1, 66600);
   (66736, 66771, 1, 66776); (66928, 66938, 1, 66967);
   (66940, 66954, 1, 66979); (66956, 66962, 1, 66995);
   (66964, 66965, 1, 67003); (68736, 68786, 1, 68800);
   (71840, 71871, 1, 71872); (93760, 93791, 1, 93792);
   (125184, 125217, 1, 125218)
  ]%N.

(** The code points that are cased without being case-ignorable, in
    ranges sorted by their first code point. *)
Definition cased_ranges : list (N * N) :=
  [
   (65, 90); (97, 122); (170, 170); (181, 181); (186, 186); (192, 214);
   (216, 246); (248, 442); (444, 447); (452, 659); (661, 687); (880, 883);
   (886, 887); (891, 893); (895, 895); (902, 902); (904, 906); (908, 908);
   (910, 929); (931, 1013); (1015, 1153); (1162, 1327); (1329, 1366);
   (1376, 1416); (4256, 4293); (4295, 4295); (4301, 4301); (4304, 4346);
   (4349, 4351); (5024, 5109); (5112, 5117); (7296, 7304); (7312, 7354);
   (7357, 7359); (7424, 7467); (7531, 7543); (7545, 7578); (7680, 7957);
   (7960, 7965); (7968, 8005); (8008, 8013); (8016, 8023); (8025, 8025);
   (8027, 8027); (8029, 8029); (8031, 8061); (8064, 8116); (8118, 8124);
   (8126, 8126); (8130, 8132); (8134, 8140); (8144, 8147); (8150, 8155);
   (8160, 8172); (8178, 8180); (8182, 8188); (8450, 8450); (8455, 8455);
   (8458, 8467); (8469, 8469); (8473, 8477); (8484, 8484); (8486, 8486);
   (8488, 8488); (8490, 8493); (8495, 8500); (8505, 8505); (8508, 8511);
   (8517, 8521); (8526, 8526); (8544, 8575); (8579, 8580); (9398, 9449);
   (11264, 11387); (11390, 11492); (11499, 11502); (11506, 11507);
   (11520, 11557); (11559, 11559); (11565, 11565); (42560, 42605);
   (42624, 42651); (42786, 42863); (42865, 42887); (42891, 42894);
   (42896, 42954); (42960, 42961); (42963, 42963); (42965, 42969);
   (42997, 42998); (43002, 43002); (43824, 43866); (43872, 43880);
   (43888, 43967); (64256, 64262); (64275, 64279); (65313, 65338);
   (65345, 65370); (66560, 66639); (66736, 66771); (66776, 66811);
   (66928, 66938); (66940, 66954); (66956, 66962); (66964, 66965);
   (66967, 66977); (66979, 66993); (66995, 67001); (67003, 67004);
   (68736, 68786); (68800, 68850); (71840, 71903); (93760, 93823);
   (119808, 119892); (119894, 119964); (119966, 119967); (119970, 119970);
   (119973, 119974); (119977, 119980); (119982, 119993); (119995, 119995);
   (119997, 120003); (120005, 120069); (120071, 120074); (120077, 120084);
   (120086, 120092); (120094, 120121); (120123, 120126); (120128, 120132);
   (120134, 120134); (120138, 120144); (120146, 120485); (120488, 120512);
   (120514, 120538); (120540, 120570); (120572, 120596); (120598, 120628);
   (120630, 120654); (120656, 120686); (120688, 120712); (120714, 120744);
   (120746, 120770); (120772, 120779); (122624, 122633); (122635, 122654);
   (125184, 125251); (127280, 127305); (127312, 127337); (127344, 127369)
  ]%N.

(** The case-ignorable code points, in sorted ranges. *)
Definition case_ignorable_ranges : list (N * N) :=
  [
   (39, 39); (46, 46); (58, 58); (94, 94); (96, 96); (168, 168);
   (173, 173); (175, 175); (180, 180); (183, 184); (688, 879); (884, 885);
   (890, 890); (900, 901); (903, 903); (1155, 1161); (1369, 1369);
   (1375, 1375); (1425, 1469); (1471, 1471); (1473, 1474); (1476, 1477);
   (1479, 1479); (1524, 1524); (1536, 1541); (1552, 1562); (1564, 1564);
   (1600, 1600); (1611, 1631); (1648, 1648); (1750, 1757); (1759, 1768);
   (1770, 1773); (1807, 1807); (1809, 1809); (1840, 1866); (1958, 1968);
   (2027, 2037); (2042, 2042); (2045, 2045); (2070, 2093); (2137, 2139);
   (2184, 2184); (2192, 2193); (2200, 2207); (2249, 2306); (2362, 2362);
   (2364, 2364); (2369, 2376); (2381, 2381); (2385, 2391); (2402, 2403);
   (2417, 2417); (2433, 2433); (2492, 2492); (2497, 2500); (2509, 2509);
   (2530, 2531); (2558, 2558); (2561, 2562); (2620, 2620); (2625, 2626);
   (2631, 2632); (2635, 2637); (2641, 2641); (2672, 2673); (2677, 2677);
   (2689, 2690); (2748, 2748); (2753, 2757); (2759, 2760); (2765, 2765);
   (2786, 2787); (2810, 2815); (2817, 2817); (2876, 2876); (2879, 2879);
   (2881, 2884); (2893, 2893); (2901, 2902); (2914, 2915); (2946, 2946);
   (3008, 3008); (3021, 3021); (3072, 3072); (3076, 3076); (3132, 3132);
   (3134, 3136); (3142, 3144); (3146, 3149); (3157, 3158); (3170, 3171);
   (3201, 3201); (3260, 3260); (3263, 3263); (3270, 3270); (3276, 3277);
   (3298, 3299); (3328, 3329); (3387, 3388); (3393, 3396); (3405, 3405);
   (3426, 3427); (3457, 3457); (3530, 3530); (3538, 3540); (3542, 3542);
   (3633, 3633); (3636, 3642); (3654, 3662); (3761, 3761); (3764, 3772);
   (3782, 3782); (3784, 3789); (3864, 3865); (3893, 3893); (3895, 3895);
   (3897, 3897); (3953, 3966); (3968, 3972); (3974, 3975); (3981, 3991);
   (3993, 4028); (4038, 4038); (4141, 4144); (4146, 4151); (4153, 4154);
   (4157, 4158); (4184, 4185); (4190, 4192); (4209, 4212); (4226, 4226);
   (4229, 4230); (4237, 4237); (4253, 4253); (4348, 4348); (4957, 4959);
   (5906, 5908); (5938, 5939); (5970, 5971); (6002, 6003); (6068, 6069);
   (6071, 6077); (6086, 6086); (6089, 6099); (6103, 6103); (6109, 6109);
   (6155, 6159); (6211, 6211); (6277, 6278); (6313, 6313); (6432, 6434);
   (6439, 6440); (6450, 6450); (6457, 6459); (6679, 6680); (6683, 6683);
   (6742, 6742); (6744, 6750); (6752, 6752); (6754, 6754); (6757, 6764);
   (6771, 6780); (6783, 6783); (6823, 6823); (6832, 6862); (6912, 6915);
   (6964, 6964); (6966, 6970); (6972, 6972); (6978, 6978); (7019, 7027);
   (7040, 7041); (7074, 7077); (7080, 7081); (7083, 7085); (7142, 7142);
   (7144, 7145); (7149, 7149); (7151, 7153); (7212, 7219); (7222, 7223);
   (7288, 7293); (7376, 7378); (7380, 7392); (7394, 7400); (7405, 7405);
   (7412, 7412); (7416, 7417); (7468, 7530); (7544, 7544); (7579, 7679);
   (8125, 8125); (8127, 8129); (8141, 8143); (8157, 8159); (8173, 8175);
   (8189, 8190); (8203, 8207); (8216, 8217); (8228, 8228); (8231, 8231);
   (8234, 8238); (8288, 8292); (8294, 8303); (8305, 8305); (8319, 8319);
   (8336, 8348); (8400, 8432); (11388, 11389); (11503, 11505);
   (11631, 11631); (11647, 11647); (11744, 11775); (11823, 11823);
   (12293, 12293); (12330, 12333); (12337, 12341); (12347, 12347);
   (12441, 12446); (12540, 12542); (40981, 40981); (42232, 42237);
   (42508, 42508); (42607, 42610); (42612, 42621); (42623, 42623);
   (42652, 42655); (42736, 42737); (42752, 42785); (42864, 42864);
   (42888, 42890); (42994, 42996); (43000, 43001); (43010, 43010);
   (43014, 43014); (43019, 43019); (43045, 43046); (43052, 43052);
   (43204, 43205); (43232, 43249); (43263, 43263); (43302, 43309);
   (43335, 43345); (43392, 43394); (43443, 43443); (43446, 43449);
   (43452, 43453); (43471, 43471); (43493, 43494); (43561, 43566);
   (43569, 43570); (43573, 43574); (43587, 43587); (43596, 43596);
   (43632, 43632); (43644, 43644); (43696, 43696); (43698, 43700);
   (43703, 43704); (43710, 43711); (43713, 43713); (43741, 43741);
   (43756, 43757); (43763, 43764); (43766, 43766); (43867, 43871);
   (43881, 43883); (44005, 44005); (44008, 44008); (44013, 44013);
   (64286, 64286); (64434, 64450); (65024, 65039); (65043, 65043);
   (65056, 65071); (65106, 65106); (65109, 65109); (65279, 65279);
   (65287, 65287); (65294, 65294); (65306, 65306); (65342, 65342);
   (65344, 65344); (65392, 65392); (65438, 65439); (65507, 65507);
   (65529, 65531); (66045, 66045); (66272, 66272); (66422, 66426);
   (67456, 67461); (67463, 67504); (67506, 67514); (68097, 68099);
   (68101, 68102); (68108, 68111); (68152, 68154); (68159, 68159);
   (68325, 68326); (68900, 68903); (69291, 69292); (69446, 69456);
   (69506, 69509); (69633, 69633); (69688, 69702); (69744, 69744);
   (69747, 69748); (69759, 69761); (69811, 69814); (69817, 69818);
   (69821, 69821); (69826, 69826); (69837, 69837); (69888, 69890);
   (69927, 69931); (69933, 69940); (70003, 70003); (70016, 70017);
   (70070, 70078); (70089, 70092); (70095, 70095); (70191, 70193);
   (70196, 70196); (70198, 70199); (70206, 70206); (70367, 70367);
   (70371, 70378); (70400, 70401); (70459, 70460); (70464, 70464);
   (70502, 70508); (70512, 70516); (70712, 70719); (70722, 70724);
   (70726, 70726); (70750, 70750); (70835, 70840); (70842, 70842);
   (70847, 70848); (70850, 70851); (71090, 71093); (71100, 71101);
   (71103, 71104); (71132, 71133); (71219, 71226); (71229, 71229);
   (71231, 71232); (71339, 71339); (71341, 71341); (71344, 71349);
   (71351, 71351); (71453, 71455); (71458, 71461); (71463, 71467);
   (71727, 71735); (71737, 71738); (71995, 71996); (71998, 71998);
   (72003, 72003); (72148, 72151); (72154, 72155); (72160, 72160);
   (72193, 72202); (72243, 72248); (72251, 72254); (72263, 72263);
   (72273, 72278); (72281, 72283); (72330, 72342); (72344, 72345);
   (72752, 72758); (72760, 72765); (72767, 72767); (72850, 72871);
   (72874, 72880); (72882, 72883); (72885, 72886); (73009, 73014);
   (73018, 73018); (73020, 73021); (73023, 73029); (73031, 73031);
   (73104, 73105); (73109, 73109); (73111, 73111); (73459, 73460);
   (78896, 78904); (92912, 92916); (92976, 92982); (92992, 92995);
   (94031, 94031); (94095, 94111); (94176, 94177); (94179, 94180);
   (110576, 110579); (110581, 110587); (110589, 110590); (113821, 113822);
   (113824, 113827); (118528, 118573); (118576, 118598); (119143, 119145);
   (119155, 119170); (119173, 119179); (119210, 119213); (119362, 119364);
   (121344, 121398); (121403, 121452); (121461, 121461); (121476, 121476);
   (121499, 121503); (121505, 121519); (122880, 122886); (122888, 122904);
   (122907, 122913); (122915, 122916); (122918, 122922); (123184, 123197);
   (123566, 123566); (123628, 123631); (125136, 125142); (125252, 125259);
   (127995, 127999); (917505, 917505); (917536, 917631); (917760, 917999)
  ]%N.

Fixpoint in_runs (c : N) (runs : list (N * N * N * N)) : option N :=
  match runs with
  | [] => None
  | (first, last, step, image) :: runs' =>
      if (c <? first)%N then None
      else if ((c <=? last) && ((c - first) mod step =? 0))%N
           then Some (image + (c - first))%N
      else in_runs c runs'
  end.

Fixpoint in_ranges (c : N) (ranges : list (N * N)) : bool :=
  match ranges with
  | [] => false
  | (first, last) :: ranges' =>
      if (c <? first)%N then false
      else if (c <=? last)%N then true
      else in_ranges c ranges'
  end.

(** The simple lowercase mapping of one code point. *)
Definition lower_cp (c : N) : N :=
  match in_runs c lower_runs with
  | Some image => image
  | None => c
  end.

(** The full lowercase mapping: U+0130 alone lowers to two code points. *)
Definition lower_full (c : N) : t :=
  if (c =? 304)%N then [105; 775]%N else [lower_cp c].

Definition is_case_ignorable (c : N) : bool :=
  in_ranges c case_ignorable_ranges.

(** Asked of code points that are not case-ignorable only. *)
Definition is_cased (c : N) : bool := in_ranges c cased_ranges.

(** Whether a cased code point follows, the case-ignorable ones skipped. *)
Fixpoint cased_ahead (s : t) : bool :=
  match s with
  | [] => false
  | c :: s' => if is_case_ignorable c then cased_ahead s' else is_cased c
  end.

(** Lowering from a position on, knowing whether a cased code point
    comes before it, the case-ignorable ones skipped: U+03A3, the capital
    sigma, lowers to the final sigma U+03C2 after a cased code point and
    before none, and to U+03C3 otherwise. *)
Fixpoint lower_from (cased_before : bool) (s : t) : t :=
  match s with
  | [] => []
  | c :: s' =>
      (if (c =? 931)%N
       then [if cased_before && negb (cased_ahead s') then 962 else 963]%N
       else lower_full c)
      ++ lower_from (if is_case_ignorable c then cased_before else is_cased c)
           s'
  end.

(** [s.lower()] *)
Definition lower (s : t) : t := lower_from false s.

(** Whether UTF-8 can encode the string: not when it has a surrogate code
    point, which a string read from JSON can have. *)
Definition encodable (s : t) : bool :=
  forallb (fun c => negb ((55296 <=? c) && (c <=? 57343))%N) s.

(** [sub in s] *)
Fixpoint prefix (p s : t) : bool :=
  match p, s with
  | [], _ => true
  | x :: p', y :: s' => N.eqb x y && prefix p' s'
  | _ :: _, [] => false
  end.

Fixpoint contains (sub s : t) : bool :=
  prefix sub s ||
  match s with
  | [] => false
  | _ :: s' => contains sub s'
  end.

(** [s.split(sep)] for a one-character separator: never empty. *)
Fixpoint split (sep : N) (s : t) : list t :=
  match s with
  | [] => [[]]
  | c :: s' =>
      if N.eqb c sep then [] :: split sep s'
      else match split sep s' with
           | w :: ws => (c :: w) :: ws
           | [] => [[c]]
           end
  end.

End PyStr.

Abbreviation pystr := PyStr.t.
Abbreviation str := PyStr.str.

(** ** Values parsed from JSON *)

(** What [json.load] returns.  [JNull] is Python's [None].  A float is kept
    only up to whether it is zero, which is all the program observes of a
    number (its truth value).  An object carries its members in the order
    of the file. *)
Inductive json :=
| JNull
| JBool (b : bool)
| JInt (z : Z)
| JFloat (zero : bool)
| JStr (s : pystr)
| JArr (items : list json)
| JObj (members : list (pystr * json)).

(** [bool(value)] *)
Definition truthy (v : json) : bool :=
  match v with
  | JNull => false
  | JBool b => b
  | JInt z => negb (Z.eqb z 0)
  | JFloat zero => negb zero
  | JStr s => match s with [] => false | _ => true end
  | JArr l => match l with [] => false | _ => true end
  | JObj m => match m with [] => false | _ => true end
  end.

(** ** Availability coercion *)

Definition _coerce_available_to_bool (value : json) : bool :=
  match value with
  | JStr s =>
      let lowered := PyStr.lower (PyStr.strip s) in
      if PyStr.mem lowered [str "yes"; str "true"; str "y"; str "1"] then true
      else if PyStr.mem lowered [str "no"; str "false"; str "n"; str "0"]
           then false
      else false
  | JBool b => b
  | _ => false
  end.

(** ** Exceptions and results *)

(** One error of a pydantic [ValidationError]: where, and of which type. *)
Inductive verror_kind :=
| missing
| string_type
| model_type
| bool_type
| value_error.

Definition verror := (list pystr * verror_kind)%type.

(** The exceptions the program can raise.  [JSONDecodeError],
    [UnicodeEncodeError] and pydantic's [ValidationError] are subclasses of
    [ValueError]; the command-line boundary catches [FileNotFoundError],
    [ValidationError] and [ValueError] only. *)
Inductive exn :=
| FileNotFoundError (file : pystr)
| JSONDecodeError (file : pystr)
| ValueError_expected_array (file : pystr)
| ValueError
| UnicodeEncodeError
| TypeError
| AttributeError
| ValidationError (model : pystr) (errors : list verror)
| ReError
| TemplateNotFound.

Inductive result (A : Type) :=
| Ok (a : A)
| Raise (e : exn).
Arguments Ok {A} a.
Arguments Raise {A} e.

Definition bind {A B} (r : result A) (k : A -> result B) : result B :=
  match r with
  | Ok a => k a
  | Raise e => Raise e
  end.

Declare Scope result_scope.
Delimit Scope result_scope with result.
Notation "x <- c ;; k" := (bind c (fun x => k))
  (at level 61, c at next level, right associativity) : result_scope.

(** A list comprehension or loop whose body can raise: the first exception
    ends it. *)
Fixpoint map_result {A B} (f : A -> result B) (l : list A) : result (list B) :=
  match l with
  | [] => Ok []
  | a :: l' =>
      (b <- f a ;; bs <- map_result f l' ;; Ok (b :: bs))%result
  end.

(** ** Python dictionaries *)

Module Dict.

(** The keys a dictionary built from parsed JSON can have: a [str], or a
    hashable value that is not a [str] (a number, a boolean or [None]).
    The program looks up [str] keys only, so the others are kept as one
    key: all that is observed of them is that keyword unpacking rejects them. *)
Inductive key :=
| KStr (s : pystr)
| KOther.

Definition key_eqb (a b : key) : bool :=
  match a, b with
  | KStr s, KStr s' => PyStr.eqb s s'
  | KOther, KOther => true
  | _, _ => false
  end.

Definition t := list (key * json).

(** [d[k]], when the key is there. *)
Fixpoint lookup (d : t) (k : key) : option json :=
  match d with
  | [] => None
  | (k', v) :: d' => if key_eqb k' k then Some v else lookup d' k
  end.

(** [d.get(k)]: [None] when the key is not there. *)
Definition get (d : t) (k : pystr) : json :=
  match lookup d (KStr k) with
  | Some v => v
  | None => JNull
  end.

(** [d[k] = v]: an existing key keeps its place. *)
Fixpoint set (d : t) (k : key) (v : json) : t :=
  match d with
  | [] => [(k, v)]
  | (k', v') :: d' =>
      if key_eqb k' k then (k', v) :: d' else (k', v') :: set d' k v
  end.

(** The dictionary [json.load] builds for an object: of two members with
    the same name the last one wins. *)
Definition of_members (m : list (pystr * json)) : t :=
  fold_left (fun d kv => set d (KStr (fst kv)) (snd kv)) m [].

Definition keys (d : t) : list key := map fst d.

(** One element of the sequence given to [dict(...)]: it must be an
    iterable of exactly two values, the first of them hashable. *)
Definition pair_of (element : json) : result (key * json) :=
  let hashed (k v : json) : result (key * json) :=
    match k with
    | JStr s => Ok (KStr s, v)
    | JArr _ | JObj _ => Raise TypeError
    | _ => Ok (KOther, v)
    end in
  match element with
  | JArr [k; v] => hashed k v
  | JArr _ => Raise ValueError
  | JStr [a; b] => Ok (KStr [a], JStr [b])
  | JStr _ => Raise ValueError
  | JObj m =>
      match keys (of_members m) with
      | [KStr k1; KStr k2] => Ok (KStr k1, JStr k2)
      | _ => Raise ValueError
      end
  | JNull | JBool _ | JInt _ | JFloat _ => Raise TypeError
  end.

Fixpoint update (d : t) (elements : list json) : result t :=
  match elements with
  | [] => Ok d
  | e :: es => (kv <- pair_of e ;; update (set d (fst kv) (snd kv)) es)%result
  end.

(** [dict(item)]: a copy of a mapping, or the dictionary of a sequence of
    pairs; iterating a non-empty string gives strings of length one,
    which are not pairs. *)
Definition dict (item : json) : result t :=
  match item with
  | JObj m => Ok (of_members m)
  | JArr elements => update [] elements
  | JStr [] => Ok []
  | JStr (_ :: _) => Raise ValueError
  | JNull | JBool _ | JInt _ | JFloat _ => Raise TypeError
  end.

(** An unpacked keyword dictionary needs every key to be a [str]. *)
Definition keywords_ok (d : t) : bool :=
  forallb (fun k => match k with KStr _ => true | KOther => false end)
          (keys d).

End Dict.

(** ** Pydantic models *)

(** The outcome of validating a value: pydantic goes through every field
    and reports all the errors it found. *)
Inductive vresult (A : Type) :=
| Valid (a : A)
| Invalid (errors : list verror).
Arguments Valid {A} a.
Arguments Invalid {A} errors.

Definition vmap {A B} (f : A -> B) (r : vresult A) : vresult B :=
  match r with
  | Valid a => Valid (f a)
  | Invalid e => Invalid e
  end.

Definition vap {A B} (rf : vresult (A -> B)) (ra : vresult A) : vresult B :=
  match rf, ra with
  | Valid f, Valid a => Valid (f a)
  | Valid _, Invalid e => Invalid e
  | Invalid e, Valid _ => Invalid e
  | Invalid e, Invalid e' => Invalid (e ++ e')
  end.

Definition vbind {A B} (r : vresult A) (k : A -> vresult B) : vresult B :=
  match r with
  | Valid a => k a
  | Invalid e => Invalid e
  end.

Declare Scope vresult_scope.
Delimit Scope vresult_scope with vresult.
Notation "f <$> a" := (vmap f a)
  (at level 62, left associativity) : vresult_scope.
Notation "f <*> a" := (vap f a)
  (at level 62, left associativity) : vresult_scope.

(** The errors of a field are located under its name. *)
Definition at_field {A} (name : pystr) (r : vresult A) : vresult A :=
  match r with
  | Valid a => Valid a
  | Invalid e => Invalid (map (fun err => (name :: fst err, snd err)) e)
  end.

(** A field without a default. *)
Definition required {A} (data : Dict.t) (name : pystr)
    (schema : json -> vresult A) : vresult A :=
  match Dict.lookup data (Dict.KStr name) with
  | Some v => at_field name (schema v)
  | None => Invalid [([name], missing)]
  end.

(** A field with a default: the validators do not run on the default. *)
Definition optional {A} (data : Dict.t) (name : pystr) (default : A)
    (schema : json -> vresult A) : vresult A :=
  match Dict.lookup data (Dict.KStr name) with
  | Some v => at_field name (schema v)
  | None => Valid default
  end.

(** [str]: in lax mode nothing that JSON can hold is coerced to a string. *)
Definition str_schema (v : json) : vresult pystr :=
  match v with
  | JStr s => Valid s
  | _ => Invalid [([], string_type)]
  end.

(** [Optional[str]] *)
Definition optional_str_schema (v : json) : vresult (option pystr) :=
  match v with
  | JNull => Valid None
  | _ => vmap Some (str_schema v)
  end.

(** [bool].  The loaders always put a Python [bool] here; the lax
    coercions of numbers and strings to [bool] are never reached and are
    not modelled. *)
Definition bool_schema (v : json) : vresult bool :=
  match v with
  | JBool b => Valid b
  | _ => Invalid [([], bool_type)]
  end.

(** A field whose type is a model takes a dictionary. *)
Definition model_schema {A} (fields : Dict.t -> vresult A) (v : json)
    : vresult A :=
  match v with
  | JObj m => fields (Dict.of_members m)
  | _ => Invalid [([], model_type)]
  end.

(** The [mode="before"] validator [_strip] the models share. *)
Definition _strip (value : json) : json :=
  match value with
  | JStr s => JStr (PyStr.strip s)
  | _ => value
  end.

Definition stripped_str (v : json) : vresult pystr := str_schema (_strip v).

Module AvailabilityBool.
Record t := { available : bool }.

Definition validate (data : Dict.t) : vresult t :=
  (Build_t <$> required data (str "available") bool_schema)%vresult.
End AvailabilityBool.

Module UserName.
Record t := { given : pystr; family : pystr }.

Definition validate (data : Dict.t) : vresult t :=
  (Build_t <$> required data (str "given") stripped_str
           <*> required data (str "family") stripped_str)%vresult.
End UserName.

Module Contact.
Record t := { email : pystr }.

Definition _strip_and_validate_email (value : json) : vresult json :=
  let value := _strip value in
  match value with
  | JStr s =>
      if PyStr.contains (str "@") s then Valid value
      else Invalid [([], value_error)]
  | _ => Invalid [([], value_error)]
  end.

Definition validate (data : Dict.t) : vresult t :=
  (Build_t <$> required data (str "email")
                 (fun v => vbind (_strip_and_validate_email v) str_schema)
  )%vresult.
End Contact.

Module Course.
Record t := {
  id : pystr;
  courseId : pystr;
  name : pystr;
  description : option pystr;
  availability : AvailabilityBool.t
}.

Definition validate (data : Dict.t) : vresult t :=
  (Build_t <$> required data (str "id") stripped_str
           <*> required data (str "courseId") stripped_str
           <*> required data (str "name") stripped_str
           <*> optional data (str "description") None
                 (fun v => optional_str_schema (_strip v))
           <*> required data (str "availability")
                 (model_schema AvailabilityBool.validate))%vresult.

(** The constructor [Course], called on the unpacked dictionary. *)
Definition new (item : Dict.t) : result t :=
  if Dict.keywords_ok item then
    match validate item with
    | Valid c => Ok c
    | Invalid e => Raise (ValidationError (str "Course") e)
    end
  else Raise TypeError.
End Course.

Definition ALLOWED_ROLES : list pystr :=
  [str "Instructor"; str "TeachingAssistant"; str "Student"; str "Grader";
   str "Observer"].

Module User.
Record t := {
  id : pystr;
  userName : pystr;
  name : UserName.t;
  contact : Contact.t;
  availability : AvailabilityBool.t
}.

Definition validate (data : Dict.t) : vresult t :=
  (Build_t <$> required data (str "id") stripped_str
           <*> required data (str "userName") stripped_str
           <*> required data (str "name") (model_schema UserName.validate)
           <*> required data (str "contact") (model_schema Contact.validate)
           <*> required data (str "availability")
                 (model_schema AvailabilityBool.validate))%vresult.

(** The constructor [User], called on the unpacked dictionary. *)
Definition new (item : Dict.t) : result t :=
  if Dict.keywords_ok item then
    match validate item with
    | Valid u => Ok u
    | Invalid e => Raise (ValidationError (str "User") e)
    end
  else Raise TypeError.
End User.

(** The records the module logger has received, oldest first. *)
Definition log := list pystr.

Module Enrollment.
Record t := {
  id : pystr;
  userId : pystr;
  courseId : pystr;
  role : pystr;
  availability : AvailabilityBool.t
}.

(** The validator of [role] that runs after the field is known to be a
    string: it logs, and returns the value it was given. *)
Definition _warn_unknown_role (value : pystr) : log * pystr :=
  (if PyStr.mem value ALLOWED_ROLES then []
   else [str "Unknown role: " ++ value],
   value).

Definition role_field (data : Dict.t) : log * vresult pystr :=
  match required data (str "role") stripped_str with
  | Valid value =>
      let (warnings, value') := _warn_unknown_role value in
      (warnings, Valid value')
  | Invalid e => ([], Invalid e)
  end.

Definition validate (data : Dict.t) : log * vresult t :=
  let (warnings, role) := role_field data in
  (warnings,
   (Build_t <$> required data (str "id") stripped_str
            <*> required data (str "userId") stripped_str
            <*> required data (str "courseId") stripped_str
            <*> role
            <*> required data (str "availability")
                  (model_schema AvailabilityBool.validate))%vresult).

(** The constructor [Enrollment], called on the unpacked dictionary. *)
Definition new (item : Dict.t) : log * result t :=
  if Dict.keywords_ok item then
    let (warnings, r) := validate item in
    (warnings,
     match r with
     | Valid e => Ok e
     | Invalid errs => Raise (ValidationError (str "Enrollment") errs)
     end)
  else ([], Raise TypeError).
End Enrollment.

(** ** Data loading *)

(** A file of the data directory, as [json.load] finds it. *)
Inductive data_file :=
| Absent
| Unparsable
| Parsed (payload : json).

(** The data directory, by file name. *)
Definition directory := pystr -> data_file.

Definition _read_json_array (data_dir : directory) (name : pystr)
    : result (list json) :=
  match data_dir name with
  | Absent => Raise (FileNotFoundError name)
  | Unparsable => Raise (JSONDecodeError name)
  | Parsed (JArr payload) => Ok payload
  | Parsed _ => Raise (ValueError_expected_array name)
  end.

(** [(item_copy.get("availability") or {}).get("available")]: a value
    that is true and is not a dictionary has no [get]. *)
Definition raw_available (item_copy : Dict.t) : result json :=
  let a := Dict.get item_copy (str "availability") in
  match (if truthy a then a else JObj []) with
  | JObj m => Ok (Dict.get (Dict.of_members m) (str "available"))
  | _ => Raise AttributeError
  end.

(** The body of the normalization loop, the same in the three loaders. *)
Definition normalize (item : json) : result Dict.t :=
  (item_copy <- Dict.dict item ;;
   avail <- raw_available item_copy ;;
   Ok (Dict.set item_copy (Dict.KStr (str "availability"))
         (JObj [(str "available", JBool (_coerce_available_to_bool avail))]))
  )%result.

Definition load_courses (data_dir : directory) : result (list Course.t) :=
  (raw <- _read_json_array data_dir (str "courses.json") ;;
   normalized <- map_result normalize raw ;;
   map_result Course.new normalized)%result.

Definition load_users (data_dir : directory) : result (list User.t) :=
  (raw <- _read_json_array data_dir (str "users.json") ;;
   normalized <- map_result normalize raw ;;
   map_result User.new normalized)%result.

(** The comprehension over [Enrollment]: the warnings of the items built so
    far stay in the log when a later item raises. *)
Fixpoint new_enrollments (normalized : list Dict.t)
    : log * result (list Enrollment.t) :=
  match normalized with
  | [] => ([], Ok [])
  | item :: rest =>
      match Enrollment.new item with
      | (w, Ok e) =>
          let (w', r) := new_enrollments rest in
          (w ++ w', bind r (fun es => Ok (e :: es)))
      | (w, Raise x) => (w, Raise x)
      end
  end.

Definition load_enrollments (data_dir : directory)
    : log * result (list Enrollment.t) :=
  match (raw <- _read_json_array data_dir (str "enrollments.json") ;;
         map_result normalize raw)%result with
  | Ok normalized => new_enrollments normalized
  | Raise x => ([], Raise x)
  end.

(** ** Transform helpers *)

(** A cell of a frame written out as CSV. *)
Inductive cell :=
| CStr (s : pystr)
| CBool (b : bool).

Definition cell_truth (value : cell) : bool :=
  match value with
  | CStr s => match s with [] => false | _ => true end
  | CBool b => b
  end.

Definition yes_no (value : cell) : cell :=
  CStr (if cell_truth value then str "Yes" else str "No").

(** The three frames, a list of rows each. *)
Module CourseRow.
Record t := {
  courseInternalId : pystr;
  courseId : pystr;
  courseName : pystr;
  term : pystr;
  courseAvailable : bool
}.
End CourseRow.

Module UserRow.
Record t := {
  userId : pystr;
  userName : pystr;
  given : pystr;
  family : pystr;
  email : pystr;
  userAvailable : bool
}.
End UserRow.

Module EnrollmentRow.
Record t := {
  enrollmentId : pystr;
  userId : pystr;
  courseInternalId : pystr;
  role : pystr;
  enrollmentAvailable : bool
}.
End EnrollmentRow.

(** [c.courseId.split("-")[-1] if "-" in c.courseId else ""] *)
Definition term_of (courseId : pystr) : pystr :=
  if PyStr.contains (str "-") courseId
  then last (PyStr.split 45 courseId) []
  else [].

Definition _build_dataframes (courses : list Course.t) (users : list User.t)
    (enrollments : list Enrollment.t)
    : list CourseRow.t * list UserRow.t * list EnrollmentRow.t :=
  let courses_df :=
    map (fun c =>
           {| CourseRow.courseInternalId := Course.id c;
              CourseRow.courseId := Course.courseId c;
              CourseRow.courseName := Course.name c;
              CourseRow.term := term_of (Course.courseId c);
              CourseRow.courseAvailable :=
                AvailabilityBool.available (Course.availability c) |})
        courses in
  let users_df :=
    map (fun u =>
           {| UserRow.userId := User.id u;
              UserRow.userName := User.userName u;
              UserRow.given := UserName.given (User.name u);
              UserRow.family := UserName.family (User.name u);
              UserRow.email := Contact.email (User.contact u);
              UserRow.userAvailable :=
                AvailabilityBool.available (User.availability u) |})
        users in
  let enrollments_df :=
    map (fun e =>
           {| EnrollmentRow.enrollmentId := Enrollment.id e;
              EnrollmentRow.userId := Enrollment.userId e;
              EnrollmentRow.courseInternalId := Enrollment.courseId e;
              EnrollmentRow.role := Enrollment.role e;
              EnrollmentRow.enrollmentAvailable :=
                AvailabilityBool.available (Enrollment.availability e) |})
        enrollments in
  (courses_df, users_df, enrollments_df).

(** [left.merge(right, on=key, how="inner")] on a string column, in the
    order pandas documents for it: the rows of [left] in order, each with
    the rows of [right] that have its key, in order. *)
Definition merge {L R} (key_l : L -> pystr) (key_r : R -> pystr)
    (left : list L) (right : list R) : list (L * R) :=
  flat_map
    (fun l => map (pair l) (filter (fun r => PyStr.eqb (key_l l) (key_r r)) right))
    left.

(** A row of the joined frame: the columns of the three frames, the key
    columns once, and the two columns added after the merges. *)
Module Row.
Record t := {
  enrollmentId : pystr;
  userId : pystr;
  courseInternalId : pystr;
  role : pystr;
  enrollmentAvailable : bool;
  userName : pystr;
  given : pystr;
  family : pystr;
  email : pystr;
  userAvailable : bool;
  courseId : pystr;
  courseName : pystr;
  term : pystr;
  courseAvailable : bool;
  userFullName : pystr;
  courseLabel : pystr
}.
End Row.

(** The separator of [courseLabel]: a space, U+2013 EN DASH, a space. *)
Definition label_separator : pystr := [32; 8211; 32]%N.

(** The two assignments that close [_join_frames], on one merged row. *)
Definition with_derived (merged : EnrollmentRow.t * UserRow.t * CourseRow.t)
    : Row.t :=
  let '(e, u, c) := merged in
  {| Row.enrollmentId := EnrollmentRow.enrollmentId e;
     Row.userId := EnrollmentRow.userId e;
     Row.courseInternalId := EnrollmentRow.courseInternalId e;
     Row.role := EnrollmentRow.role e;
     Row.enrollmentAvailable := EnrollmentRow.enrollmentAvailable e;
     Row.userName := UserRow.userName u;
     Row.given := UserRow.given u;
     Row.family := UserRow.family u;
     Row.email := UserRow.email u;
     Row.userAvailable := UserRow.userAvailable u;
     Row.courseId := CourseRow.courseId c;
     Row.courseName := CourseRow.courseName c;
     Row.term := CourseRow.term c;
     Row.courseAvailable := CourseRow.courseAvailable c;
     Row.userFullName :=
       PyStr.strip (UserRow.given u ++ str " " ++ UserRow.family u);
     Row.courseLabel :=
       CourseRow.courseId c ++ label_separator ++ CourseRow.courseName c |}.

(** The columns of a frame are fixed by the type of its rows, so the
    branch that adds the missing columns to an empty frame changes
    nothing here. *)
Definition _join_frames (courses_df : list CourseRow.t)
    (users_df : list UserRow.t) (enrollments_df : list EnrollmentRow.t)
    : list Row.t :=
  let df :=
    merge (fun eu => EnrollmentRow.courseInternalId (fst eu))
          CourseRow.courseInternalId
          (merge EnrollmentRow.userId UserRow.userId enrollments_df users_df)
          courses_df in
  map with_derived df.

(** ** Filters *)

(** The regular-expression engine behind [Series.str.contains]: compiling
    the pattern can fail, and a compiled pattern searches a string. *)
Definition regex_engine := pystr -> option (pystr -> bool).

Definition _apply_filters (re_compile : regex_engine) (joined_df : list Row.t)
    (course_filter : option pystr)
    (include_instructors include_students only_available : bool)
    : result (list Row.t) :=
  let df := joined_df in
  let df :=
    if only_available && negb (match df with [] => true | _ => false end)
    then filter (fun r => Row.courseAvailable r && Row.userAvailable r
                          && Row.enrollmentAvailable r) df
    else df in
  (df <- match course_filter with
         | Some ((_ :: _) as filter_text) =>
             let needle := PyStr.lower filter_text in
             match re_compile needle with
             | Some search =>
                 Ok (filter (fun r => search (PyStr.lower (Row.courseId r))
                                      || search (PyStr.lower (Row.courseName r)))
                            df)
             | None => Raise ReError
             end
         | _ => Ok df
         end ;;
   let df :=
     if negb (include_instructors && include_students) then
       let is_student r := PyStr.eqb (PyStr.lower (Row.role r)) (str "student") in
       let keep_mask := fun _ : Row.t => false in
       let keep_mask :=
         if include_students then fun r => keep_mask r || is_student r
         else keep_mask in
       let keep_mask :=
         if include_instructors then fun r => keep_mask r || negb (is_student r)
         else keep_mask in
       filter keep_mask df
     else df in
   Ok df)%result.

(** ** Report *)

Record table := { columns : list pystr; records : list (list cell) }.

Definition csv_columns : list pystr :=
  [str "courseInternalId"; str "courseId"; str "courseName"; str "term";
   str "userId"; str "userName"; str "userFullName"; str "email"; str "role";
   str "enrollmentAvailable"; str "userAvailable"; str "courseAvailable"].

Definition _prepare_csv (df : list Row.t) : table :=
  match df with
  | [] => {| columns := csv_columns; records := [] |}
  | _ =>
      {| columns := csv_columns;
         records :=
           map (fun r =>
                  [CStr (Row.courseInternalId r); CStr (Row.courseId r);
                   CStr (Row.courseName r); CStr (Row.term r);
                   CStr (Row.userId r); CStr (Row.userName r);
                   CStr (Row.userFullName r); CStr (Row.email r);
                   CStr (Row.role r); CBool (Row.enrollmentAvailable r);
                   CBool (Row.userAvailable r); CBool (Row.courseAvailable r)])
               df |}
  end.

(** [frame[col] = frame[col].map(f)] *)
Fixpoint map_cell (cols : list pystr) (col : pystr) (f : cell -> cell)
    (record : list cell) : list cell :=
  match cols, record with
  | c :: cols', x :: record' =>
      (if PyStr.eqb c col then f x else x) :: map_cell cols' col f record'
  | _, _ => record
  end.

Definition map_column (frame : table) (col : pystr) (f : cell -> cell) : table :=
  if PyStr.mem col (columns frame) then
    {| columns := columns frame;
       records := map (map_cell (columns frame) col f) (records frame) |}
  else frame.

Module HtmlRow.
Record t := {
  courseLabel : pystr;
  term : pystr;
  userFullName : pystr;
  role : pystr;
  enrollmentAvailable : bool;
  userAvailable : bool;
  courseAvailable : bool
}.
End HtmlRow.

Module Summary.
Record t := { courses : nat; users : nat; enrollments : nat }.
End Summary.

(** [Series.nunique()] *)
Fixpoint nunique (values : list pystr) : nat :=
  match values with
  | [] => 0
  | v :: values' =>
      if PyStr.mem v values' then nunique values' else S (nunique values')
  end.

Module Audit.
Record t := {
  timestamp : pystr;
  args_data_dir : pystr;
  args_out_dir : pystr;
  args_course_filter : option pystr;
  args_include_instructors : bool;
  args_include_students : bool;
  args_only_available : bool;
  input_sizes_courses : nat;
  input_sizes_users : nat;
  input_sizes_enrollments : nat;
  output_sizes_csv_rows : nat;
  output_sizes_unique_courses : nat;
  output_sizes_unique_users : nat;
  filters_only_available : bool;
  filters_course_filter : option pystr;
  filters_roles_included_instructors : bool;
  filters_roles_included_students : bool
}.
End Audit.

(** What lies outside the repository: the regular expressions of pandas,
    the template [report.html.j2] of the templates directory when it is
    there, and the two readings of the clock. *)
Record environment := {
  re_compile : regex_engine;
  template : option (list HtmlRow.t -> Summary.t -> pystr -> pystr);
  generated_at : pystr;
  timestamp : pystr
}.

(** A file of the output directory. *)
Inductive artifact :=
| CsvFile (frame : table)
| TextFile (content : pystr)
| JsonFile (audit : Audit.t).

(** What a run changes: the log, and the output directory with its files
    by name, the last one written first. *)
Record world := {
  logged : log;
  out_dir_exists : bool;
  out_files : list (pystr * artifact)
}.

(** Computations that change the world and can raise. *)
Definition io (A : Type) := world -> world * result A.

Definition ret {A} (a : A) : io A := fun w => (w, Ok a).

Definition io_bind {A B} (c : io A) (k : A -> io B) : io B :=
  fun w =>
    match c w with
    | (w', Ok a) => k a w'
    | (w', Raise e) => (w', Raise e)
    end.

Declare Scope io_scope.
Delimit Scope io_scope with io.
Notation "x <- c ;; k" := (io_bind c (fun x => k))
  (at level 61, c at next level, right associativity) : io_scope.
Notation "c ;; k" := (io_bind c (fun _ => k))
  (at level 61, right associativity) : io_scope.

Definition lift {A} (r : result A) : io A := fun w => (w, r).

Definition logging {A} (c : log * result A) : io A :=
  fun w =>
    ({| logged := logged w ++ fst c;
        out_dir_exists := out_dir_exists w;
        out_files := out_files w |}, snd c).

(** [out_dir.mkdir(parents=True, exist_ok=True)] *)
Definition mkdir : io unit :=
  fun w =>
    ({| logged := logged w; out_dir_exists := true; out_files := out_files w |},
     Ok tt).

(** A file put into the output directory.  The file system takes every
    file; what can fail is the encoding of the text, before this. *)
Definition write (name : pystr) (content : artifact) : io unit :=
  fun w =>
    ({| logged := logged w;
        out_dir_exists := out_dir_exists w;
        out_files := (name, content) :: out_files w |},
     Ok tt).

Definition cell_encodable (value : cell) : bool :=
  match value with
  | CStr s => PyStr.encodable s
  | CBool _ => true
  end.

(** The lines before the first one that UTF-8 cannot encode. *)
Fixpoint encodable_lines (lines : list (list cell)) : list (list cell) :=
  match lines with
  | [] => []
  | line :: lines' =>
      if forallb cell_encodable line then line :: encodable_lines lines'
      else []
  end.

(** [frame.to_csv(path, index=False)]: the file is opened, and the header
    and then the lines are encoded and written one by one; a line that
    cannot be encoded raises, and the file stays with what was written
    before it. *)
Definition to_csv (name : pystr) (frame : table) : io unit :=
  fun w =>
    if forallb PyStr.encodable (columns frame) then
      if forallb (forallb cell_encodable) (records frame)
      then write name (CsvFile frame) w
      else
        (fst (write name
                (CsvFile {| columns := columns frame;
                            records := encodable_lines (records frame) |}) w),
         Raise UnicodeEncodeError)
    else
      (fst (write name (CsvFile {| columns := []; records := [] |}) w),
       Raise UnicodeEncodeError).

(** [path.write_text(content, encoding="utf-8")]: the file is opened, and
    the text is encoded as a whole; a text that cannot be encoded raises
    and leaves the file empty. *)
Definition write_text (name : pystr) (content : pystr) : io unit :=
  fun w =>
    if PyStr.encodable content then write name (TextFile content) w
    else (fst (write name (TextFile []) w), Raise UnicodeEncodeError).

Fixpoint read (files : list (pystr * artifact)) (name : pystr)
    : option artifact :=
  match files with
  | [] => None
  | (n, a) :: files' => if PyStr.eqb n name then Some a else read files' name
  end.

Definition _render_html (env : environment) (rows : list HtmlRow.t)
    (summary : Summary.t) : result pystr :=
  match template env with
  | Some render => Ok (render rows summary (generated_at env))
  | None => Raise TemplateNotFound
  end.

(** A path of [pathlib] on POSIX: its root, which is empty, one slash or
    two, and its components, without the empty ones and the dots. *)
Module PosixPath.

Record t := { root : pystr; parts : list pystr }.

Fixpoint leading_slashes (s : pystr) : nat :=
  match s with
  | c :: s' => if N.eqb c 47 then S (leading_slashes s') else 0
  | [] => 0
  end.

(** [Path(s)] *)
Definition of_str (s : pystr) : t :=
  {| root := match leading_slashes s with
             | 0 => []
             | 2 => str "//"
             | _ => str "/"
             end;
     parts := filter (fun part => negb (PyStr.eqb part []
                                        || PyStr.eqb part (str ".")))
                     (PyStr.split 47 s) |}.

Fixpoint join_parts (components : list pystr) : pystr :=
  match components with
  | [] => []
  | [last] => last
  | part :: components' => part ++ str "/" ++ join_parts components'
  end.

(** [str(path)] *)
Definition to_str (path : t) : pystr :=
  match root path ++ join_parts (parts path) with
  | [] => str "."
  | text => text
  end.

(** [path / name]: a name with a root replaces the path. *)
Definition truediv (path : t) (name : pystr) : t :=
  let other := of_str name in
  match root other with
  | [] => {| root := root path; parts := parts path ++ parts other |}
  | _ => other
  end.

End PosixPath.

(** [str(Path(text))] *)
Definition path_str (text : pystr) : pystr :=
  PosixPath.to_str (PosixPath.of_str text).

(** [str(out_dir / name)] *)
Definition joinpath (dir name : pystr) : pystr :=
  PosixPath.to_str (PosixPath.truediv (PosixPath.of_str dir) name).

Definition generate_report (env : environment) (files : directory)
    (data_dir out_dir : pystr) (course_filter : option pystr)
    (include_instructors include_students only_available : bool)
    : io (pystr * pystr * pystr) :=
  (courses <- lift (load_courses files) ;;
   users <- lift (load_users files) ;;
   enrollments <- logging (load_enrollments files) ;;
   let '(courses_df, users_df, enrollments_df) :=
     _build_dataframes courses users enrollments in
   let joined_df := _join_frames courses_df users_df enrollments_df in
   filtered_df <- lift (_apply_filters (re_compile env) joined_df course_filter
                          include_instructors include_students only_available) ;;
   mkdir ;;
   let csv_df := _prepare_csv filtered_df in
   let csv_df :=
     fold_left (fun frame col => map_column frame col yes_no)
       [str "enrollmentAvailable"; str "userAvailable"; str "courseAvailable"]
       csv_df in
   let csv_path := joinpath out_dir (str "enrollment_report.csv") in
   to_csv (str "enrollment_report.csv") csv_df ;;
   let rows_for_html :=
     map (fun r =>
            {| HtmlRow.courseLabel := Row.courseLabel r;
               HtmlRow.term := Row.term r;
               HtmlRow.userFullName := Row.userFullName r;
               HtmlRow.role := Row.role r;
               HtmlRow.enrollmentAvailable := Row.enrollmentAvailable r;
               HtmlRow.userAvailable := Row.userAvailable r;
               HtmlRow.courseAvailable := Row.courseAvailable r |})
         filtered_df in
   let summary :=
     {| Summary.courses :=
          match filtered_df with
          | [] => 0
          | _ => nunique (map Row.courseInternalId filtered_df)
          end;
        Summary.users :=
          match filtered_df with
          | [] => 0
          | _ => nunique (map Row.userId filtered_df)
          end;
        Summary.enrollments := length filtered_df |} in
   html_content <- lift (_render_html env rows_for_html summary) ;;
   let html_path := joinpath out_dir (str "enrollment_report.html") in
   write_text (str "enrollment_report.html") html_content ;;
   let audit :=
     {| Audit.timestamp := timestamp env;
        Audit.args_data_dir := path_str data_dir;
        Audit.args_out_dir := path_str out_dir;
        Audit.args_course_filter := course_filter;
        Audit.args_include_instructors := include_instructors;
        Audit.args_include_students := include_students;
        Audit.args_only_available := only_available;
        Audit.input_sizes_courses := length courses;
        Audit.input_sizes_users := length users;
        Audit.input_sizes_enrollments := length enrollments;
        Audit.output_sizes_csv_rows := length (records csv_df);
        Audit.output_sizes_unique_courses := Summary.courses summary;
        Audit.output_sizes_unique_users := Summary.users summary;
        Audit.filters_only_available := only_available;
        Audit.filters_course_filter := course_filter;
        Audit.filters_roles_included_instructors := include_instructors;
        Audit.filters_roles_included_students := include_students |} in
   let audit_path := joinpath out_dir (str "audit.json") in
   write (str "audit.json") (JsonFile audit) ;;
   ret (csv_path, html_path, audit_path))%io.

(** The two steps of [generate_report] between loading and filtering. *)
Definition joined_rows (courses : list Course.t) (users : list User.t)
    (enrollments : list Enrollment.t) : list Row.t :=
  let '(courses_df, users_df, enrollments_df) :=
    _build_dataframes courses users enrollments in
  _join_frames courses_df users_df enrollments_df.

(** The row of one enrollment with one user and one course. *)
Definition row_of (e : Enrollment.t) (u : User.t) (c : Course.t) : Row.t :=
  {| Row.enrollmentId := Enrollment.id e;
     Row.userId := Enrollment.userId e;
     Row.courseInternalId := Enrollment.courseId e;
     Row.role := Enrollment.role e;
     Row.enrollmentAvailable :=
       AvailabilityBool.available (Enrollment.availability e);
     Row.userName := User.userName u;
     Row.given := UserName.given (User.name u);
     Row.family := UserName.family (User.name u);
     Row.email := Contact.email (User.contact u);
     Row.userAvailable := AvailabilityBool.available (User.availability u);
     Row.courseId := Course.courseId c;
     Row.courseName := Course.name c;
     Row.term := term_of (Course.courseId c);
     Row.courseAvailable := AvailabilityBool.available (Course.availability c);
     Row.userFullName :=
       PyStr.strip (UserName.given (User.name u) ++ str " "
                    ++ UserName.family (User.name u));
     Row.courseLabel :=
       Course.courseId c ++ label_separator ++ Course.name c |}.

(** The users and the courses an enrollment names, in input order. *)
Definition users_of (users : list User.t) (e : Enrollment.t) : list User.t :=
  filter (fun u => PyStr.eqb (Enrollment.userId e) (User.id u)) users.

Definition courses_of (courses : list Course.t) (e : Enrollment.t)
    : list Course.t :=
  filter (fun c => PyStr.eqb (Enrollment.courseId e) (Course.id c)) courses.

(** The reference of the specification: first the inner join of the
    validated entities, enrollment with user and then with course, and
    only then the three derived fields, on each surviving row. *)
Definition inner_join (courses : list Course.t) (users : list User.t)
    (enrollments : list Enrollment.t)
    : list (Enrollment.t * User.t * Course.t) :=
  merge (fun eu => Enrollment.courseId (fst eu)) Course.id
        (merge Enrollment.userId User.id enrollments users) courses.

Definition reference_rows (courses : list Course.t) (users : list User.t)
    (enrollments : list Enrollment.t) : list Row.t :=
  map (fun euc => row_of (fst (fst euc)) (snd (fst euc)) (snd euc))
      (inner_join courses users enrollments).

(** The role rule of the specification, evaluated on every row. *)
Definition is_student (r : Row.t) : bool :=
  PyStr.eqb (PyStr.lower (Row.role r)) (str "student").

Definition role_rule (include_instructors include_students : bool)
    (r : Row.t) : bool :=
  (include_students && is_student r)
  || (include_instructors && negb (is_student r)).

(** The two sets of words of the specification, and the values it maps to
    true. *)
Definition true_words : list pystr := [str "yes"; str "true"; str "y"; str "1"].
Definition false_words : list pystr := [str "no"; str "false"; str "n"; str "0"].

Definition reads_as_true (value : json) : Prop :=
  value = JBool true
  \/ exists s, value = JStr s /\ In (PyStr.lower (PyStr.strip s)) true_words.

(** An enrollment that names no user, or no course, of the input. *)
Definition unresolved (courses : list Course.t) (users : list User.t)
    (e : Enrollment.t) : Prop :=
  (forall u, In u users -> User.id u <> Enrollment.userId e)
  \/ (forall c, In c courses -> Course.id c <> Enrollment.courseId e).


(** A record without a usable availability: the field is absent, or null,
    or an object that has no member named available. *)
Definition lacks_available (item_copy : Dict.t) : Prop :=
  match Dict.lookup item_copy (Dict.KStr (str "availability")) with
  | None => True
  | Some JNull => True
  | Some (JObj a) =>
      Dict.lookup (Dict.of_members a) (Dict.KStr (str "available")) = None
  | Some _ => False
  end.

(** The availability the loaders put in its place. *)
Definition not_available : json := JObj [(str "available", JBool false)].

Definition unavailable : AvailabilityBool.t :=
  {| AvailabilityBool.available := false |}.

(** A data directory whose files all hold the same array. *)
Definition array_file (payload : list json) : directory :=
  fun _ => Parsed (JArr payload).

(** The three input files. *)
Definition data_files : list pystr :=
  [str "courses.json"; str "users.json"; str "enrollments.json"].

(** A file that is missing, or is not JSON, or is not an array. *)
Definition not_an_array (f : data_file) : Prop :=
  match f with
  | Parsed (JArr _) => False
  | _ => True
  end.

(** A fatal error of the load: one of the three loaders raises, for a
    missing file, for a file that is not an array, or for a record that
    fails validation. *)
Definition load_fails (files : directory) : Prop :=
  (exists e, load_courses files = Raise e)
  \/ (exists e, load_users files = Raise e)
  \/ (exists e, snd (load_enrollments files) = Raise e).


(** The three outputs of a run over empty input. *)
Definition empty_csv : table := {| columns := csv_columns; records := [] |}.



(** ** Sample data

    The entities of the fixture of [tests/test_report.py], and a few
    more to try the edges. *)

Module Sample.

Definition available (b : bool) : AvailabilityBool.t :=
  {| AvailabilityBool.available := b |}.

Definition course1 : Course.t :=
  {| Course.id := str "_c1_1"; Course.courseId := str "CS101-2025FA";
     Course.name := str "Intro to CS"; Course.description := None;
     Course.availability := available true |}.

Definition course2 : Course.t :=
  {| Course.id := str "_c2_1"; Course.courseId := str "HIST200-2025FA";
     Course.name := str "World History"; Course.description := None;
     Course.availability := available false |}.

(** A second course with the id of the first. *)
Definition course1_again : Course.t :=
  {| Course.id := str "_c1_1"; Course.courseId := str "CS101-2026SP";
     Course.name := str "Intro to CS"; Course.description := None;
     Course.availability := available true |}.

Definition user1 : User.t :=
  {| User.id := str "_u1_1"; User.userName := str "inst1";
     User.name := {| UserName.given := str "Ina";
                     UserName.family := str "Structor" |};
     User.contact := {| Contact.email := str "ina@school.edu" |};
     User.availability := available true |}.

Definition user2 : User.t :=
  {| User.id := str "_u2_1"; User.userName := str "stud1";
     User.name := {| UserName.given := str "Stu";
                     UserName.family := str "Dent" |};
     User.contact := {| Contact.email := str "stu@school.edu" |};
     User.availability := available true |}.

Definition user3 : User.t :=
  {| User.id := str "_u3_1"; User.userName := str "stud2";
     User.name := {| UserName.given := str "Una";
                     UserName.family := str "Vailable" |};
     User.contact := {| Contact.email := str "una@school.edu" |};
     User.availability := available false |}.

(** A second user with the id of the first. *)
Definition user1_again : User.t :=
  {| User.id := str "_u1_1"; User.userName := str "inst1b";
     User.name := {| UserName.given := str "Ivo";
                     UserName.family := str "Structor" |};
     User.contact := {| Contact.email := str "ivo@school.edu" |};
     User.availability := available true |}.

Definition enrollment1 : Enrollment.t :=
  {| Enrollment.id := str "_e1_1"; Enrollment.userId := str "_u1_1";
     Enrollment.courseId := str "_c1_1"; Enrollment.role := str "Instructor";
     Enrollment.availability := available true |}.

Definition enrollment2 : Enrollment.t :=
  {| Enrollment.id := str "_e2_1"; Enrollment.userId := str "_u2_1";
     Enrollment.courseId := str "_c1_1"; Enrollment.role := str "Student";
     Enrollment.availability := available true |}.

Definition enrollment3 : Enrollment.t :=
  {| Enrollment.id := str "_e3_1"; Enrollment.userId := str "_u3_1";
     Enrollment.courseId := str "_c2_1"; Enrollment.role := str "Student";
     Enrollment.availability := available false |}.

(** An enrollment of a user that is not in the export. *)
Definition orphan : Enrollment.t :=
  {| Enrollment.id := str "_e9_1"; Enrollment.userId := str "_u9_1";
     Enrollment.courseId := str "_c1_1"; Enrollment.role := str "Student";
     Enrollment.availability := available true |}.

Definition courses : list Course.t := [course1; course2].
Definition users : list User.t := [user1; user2; user3].
Definition enrollments : list Enrollment.t :=
  [enrollment1; enrollment2; enrollment3].

(** The records of the first course and of the first user as the files
    have them, and records of another course and another user with the
    same ids. *)
Definition object (members : list (string * json)) : json :=
  JObj (map (fun kv => (str (fst kv), snd kv)) members).

Definition raw_course1 : json :=
  object [("id", JStr (str "_c1_1")); ("courseId", JStr (str "CS101-2025FA"));
          ("name", JStr (str "Intro to CS"));
          ("availability", object [("available", JStr (str "Yes"))])]%string.

Definition raw_course1_again : json :=
  object [("id", JStr (str "_c1_1")); ("courseId", JStr (str "CS101-2026SP"));
          ("name", JStr (str "Intro to CS"));
          ("availability", object [("available", JStr (str "Yes"))])]%string.

Definition raw_user (id userName given family email : string) : json :=
  object [("id", JStr (str id)); ("userName", JStr (str userName));
          ("name", object [("given", JStr (str given));
                           ("family", JStr (str family))]);
          ("contact", object [("email", JStr (str email))]);
          ("availability", object [("available", JStr (str "Yes"))])]%string.

Definition raw_user1 : json :=
  raw_user "_u1_1" "inst1" "Ina" "Structor" "ina@school.edu".

Definition raw_user1_again : json :=
  raw_user "_u1_1" "inst1b" "Ivo" "Structor" "ivo@school.edu".

(** An enrollment with a role of its own, and no availability. *)
Definition raw_enrollment_super : json :=
  object [("id", JStr (str "_x_1")); ("userId", JStr (str "_u_1"));
          ("courseId", JStr (str "_c_1")); ("type", JStr (str "SuperType"));
          ("role", JStr (str " SuperRole "))]%string.

Definition duplicate_ids : directory :=
  fun name =>
    if PyStr.eqb name (str "courses.json")
    then Parsed (JArr [raw_course1; raw_course1_again])
    else if PyStr.eqb name (str "users.json")
    then Parsed (JArr [raw_user1; raw_user1_again])
    else Parsed (JArr []).

(** Patterns without special characters, which search for themselves. *)
Definition literal_patterns : regex_engine :=
  fun pattern => Some (PyStr.contains pattern).

(** An environment whose templates directory has the template, and one
    whose templates directory has not. *)
Definition with_template : environment :=
  {| re_compile := literal_patterns;
     template := Some (fun _ _ generated_at => str "<html>" ++ generated_at);
     generated_at := str "2026-01-01T00:00:00+00:00";
     timestamp := str "2026-01-01T00:00:01+00:00" |}.

Definition without_template : environment :=
  {| re_compile := literal_patterns;
     template := None;
     generated_at := str "2026-01-01T00:00:00+00:00";
     timestamp := str "2026-01-01T00:00:01+00:00" |}.



(** Nothing logged, no output directory. *)
Definition fresh : world :=
  {| logged := []; out_dir_exists := false; out_files := [] |}.

(** A data directory without [users.json]. *)
Definition no_users_file : directory :=
  fun name =>
    if PyStr.eqb name (str "users.json") then Absent else Parsed (JArr []).

End Sample.

(** ** The rest of the module

    The helper the module keeps for the Yes/No availability of the API,
    the two commands of the command line, and names for what a run writes
    and for what the filters keep. *)


(** How a command ends: with the line of the three paths it wrote; or in
    its handler, which echoes the exception and exits with code 1; or
    with an exception that is none of the handler's and leaves the
    command. *)
Inductive outcome :=
| Wrote (csv_path html_path audit_path : pystr)
| Exit1 (exc : exn)
| Uncaught (exc : exn).

(** The exceptions of the output stage: the template that is not there
    and the text that UTF-8 cannot encode. *)
Definition raised_by_output (exc : exn) : bool :=
  match exc with
  | TemplateNotFound | UnicodeEncodeError => true
  | _ => false
  end.

(** [except (FileNotFoundError, ValidationError, ValueError)] *)
Definition handled (exc : exn) : bool :=
  match exc with
  | FileNotFoundError _ | JSONDecodeError _ | ValueError_expected_array _
  | ValueError | UnicodeEncodeError | ValidationError _ _ => true
  | TypeError | AttributeError | ReError | TemplateNotFound => false
  end.

(** The command [generate]. *)
Definition generate (env : environment) (files : directory)
    (data_dir out_dir : pystr) (course_filter : option pystr)
    (include_instructors include_students only_available : bool)
    (w : world) : world * outcome :=
  match generate_report env files data_dir out_dir course_filter
          include_instructors include_students only_available w with
  | (w', Ok (csv_path, html_path, audit_path)) =>
      (w', Wrote csv_path html_path audit_path)
  | (w', Raise exc) => (w', if handled exc then Exit1 exc else Uncaught exc)
  end.


(** The frame [generate_report] writes as CSV, the rows and the summary it
    renders, and its audit, for the rows the filters kept. *)
Definition csv_of (filtered_df : list Row.t) : table :=
  fold_left (fun frame col => map_column frame col yes_no)
    [str "enrollmentAvailable"; str "userAvailable"; str "courseAvailable"]
    (_prepare_csv filtered_df).

Definition rows_for_html (filtered_df : list Row.t) : list HtmlRow.t :=
  map (fun r =>
         {| HtmlRow.courseLabel := Row.courseLabel r;
            HtmlRow.term := Row.term r;
            HtmlRow.userFullName := Row.userFullName r;
            HtmlRow.role := Row.role r;
            HtmlRow.enrollmentAvailable := Row.enrollmentAvailable r;
            HtmlRow.userAvailable := Row.userAvailable r;
            HtmlRow.courseAvailable := Row.courseAvailable r |})
      filtered_df.



(** The line of the CSV file for one row: nine strings, then Yes or No for
    the enrollment, the user and the course. *)
Definition yes_no_str (b : bool) : pystr := if b then str "Yes" else str "No".

Definition csv_line (r : Row.t) : list cell :=
  [CStr (Row.courseInternalId r); CStr (Row.courseId r);
   CStr (Row.courseName r); CStr (Row.term r);
   CStr (Row.userId r); CStr (Row.userName r);
   CStr (Row.userFullName r); CStr (Row.email r);
   CStr (Row.role r); CStr (yes_no_str (Row.enrollmentAvailable r));
   CStr (yes_no_str (Row.userAvailable r));
   CStr (yes_no_str (Row.courseAvailable r))].

(** What the three filters keep, as one test on a row. *)
Definition all_available (r : Row.t) : bool :=
  Row.courseAvailable r && Row.userAvailable r && Row.enrollmentAvailable r.

Definition course_matches (search : pystr -> bool) (r : Row.t) : bool :=
  search (PyStr.lower (Row.courseId r))
  || search (PyStr.lower (Row.courseName r)).

Definition keeps (search : option (pystr -> bool))
    (include_instructors include_students only_available : bool)
    (r : Row.t) : bool :=
  (negb only_available || all_available r)
  && match search with
     | Some found => course_matches found r
     | None => true
     end
  && role_rule include_instructors include_students r.

(** The compiled course filter: none when the option is absent or the
    empty string. *)
Definition compiled (re_compile : regex_engine) (course_filter : option pystr)
    : option (option (pystr -> bool)) :=
  match course_filter with
  | Some ((_ :: _) as filter_text) =>
      option_map Some (re_compile (PyStr.lower filter_text))
  | _ => Some None
  end.

(** A string that [strip] leaves as it is. *)
Definition trimmed (s : pystr) : Prop := PyStr.strip s = s.

(** The warning of an enrollment, if its role is not a recognized one. *)
Definition warnings_of (e : Enrollment.t) : log :=
  if PyStr.mem (Enrollment.role e) ALLOWED_ROLES then []
  else [str "Unknown role: " ++ Enrollment.role e].




(** A validation that fails, with this error among those it reports. *)
Definition fails_with {A} (r : vresult A) (err : verror) : Prop :=
  exists errs, r = Invalid errs /\ In err errs.

(** A data directory with the first course, the first user and the first
    enrollment of the fixture, the user id of the enrollment with white
    space around it. *)
Definition raw_enrollment1 : json :=
  Sample.object
    [("id", JStr (str "_e1_1")); ("userId", JStr (str " _u1_1 "));
     ("courseId", JStr (str "_c1_1")); ("role", JStr (str "Instructor"));
     ("availability", Sample.object [("available", JBool true)])]%string.


(** The files of the fixture with a course whose name is one lone
    surrogate, U+D800, as [json.load] gives it for the escape of it. *)
Definition raw_course_surrogate : json :=
  Sample.object
    [("id", JStr (str "_c1_1")); ("courseId", JStr (str "CS101-2025FA"));
     ("name", JStr [55296%N]);
     ("availability", Sample.object [("available", JStr (str "Yes"))])]%string.

Definition surrogate_files : directory :=
  fun name =>
    if PyStr.eqb name (str "courses.json")
    then Parsed (JArr [raw_course_surrogate])
    else if PyStr.eqb name (str "users.json")
    then Parsed (JArr [Sample.raw_user1])
    else Parsed (JArr [raw_enrollment1]).

(** The full name of two trimmed names: both with a space between them,
    or the one that is not empty. *)
Definition full_name (given family : pystr) : pystr :=
  match given, family with
  | [], _ => family
  | _, [] => given
  | _, _ => given ++ str " " ++ family
  end.

(** A record that is no object and no sequence: a number, a boolean or
    null. *)
Definition scalar (item : json) : Prop :=
  match item with
  | JNull | JBool _ | JInt _ | JFloat _ => True
  | _ => False
  end.

(** * Properties *)

(** ** Strings and dictionaries *)

Module PyStrFacts.

Lemma eqb_eq (a b : pystr) : PyStr.eqb a b = true <-> a = b.
Proof.
  revert b; induction a as [|x a IH]; intros [|y b]; simpl;
    try (split; [discriminate | congruence]); try tauto.
  rewrite andb_true_iff, N.eqb_eq, IH. split.
  - intros [-> ->]; reflexivity.
  - intros E; injection E; auto.
Qed.

Lemma eqb_refl (a : pystr) : PyStr.eqb a a = true.
Proof. apply eqb_eq; reflexivity. Qed.

Lemma mem_In (x : pystr) (set : list pystr) :
  PyStr.mem x set = true <-> In x set.
Proof.
  unfold PyStr.mem. rewrite existsb_exists. split.
  - intros (y & Hy & E). apply eqb_eq in E. subst; assumption.
  - intros H. exists x. split; [assumption | apply eqb_refl].
Qed.

End PyStrFacts.

(** ** Availability coercion *)

Section Coercion.

Lemma coerce_str (s : pystr) :
  _coerce_available_to_bool (JStr s)
  = PyStr.mem (PyStr.lower (PyStr.strip s)) true_words.
Proof.
  unfold _coerce_available_to_bool. fold true_words false_words.
  destruct (PyStr.mem _ true_words); [reflexivity|].
  destruct (PyStr.mem _ false_words); reflexivity.
Qed.

Lemma coerce_true_iff (value : json) :
  _coerce_available_to_bool value = true <-> reads_as_true value.
Proof.
  unfold reads_as_true. destruct value as [ | b | z | f | s | l | m ].
  1, 3, 4, 6, 7:
    split; [discriminate | intros [E | (s' & E & _)]; discriminate].
  - split.
    + simpl. intros ->. left; reflexivity.
    + intros [E | (s' & E & _)]; [injection E as ->; reflexivity | discriminate].
  - rewrite coerce_str, PyStrFacts.mem_In. split.
    + intros H. right. exists s. split; [reflexivity | assumption].
    + intros [E | (s' & E & Hin)]; [discriminate|].
      injection E as <-. assumption.
Qed.

(** C3: availability coercion is a total function that is true exactly
    on the boolean true and on the strings whose trimmed lowercase form
    is one of yes, true, y, 1, and false on every other value: the
    boolean false, the strings that read as no, false, n, 0, anything
    else, and null; it maps "Yes" to true, "no" to false, true to true,
    "maybe" to false and None to false. *)
Theorem coerce_available_total_conservative :
  (forall value, _coerce_available_to_bool value = true <-> reads_as_true value)
  /\ (forall value,
        _coerce_available_to_bool value = false <-> ~ reads_as_true value)
  /\ _coerce_available_to_bool (JBool false) = false
  /\ (forall s, In (PyStr.lower (PyStr.strip s)) false_words ->
                _coerce_available_to_bool (JStr s) = false)
  /\ _coerce_available_to_bool (JStr (str "Yes")) = true
  /\ _coerce_available_to_bool (JStr (str "no")) = false
  /\ _coerce_available_to_bool (JBool true) = true
  /\ _coerce_available_to_bool (JStr (str "maybe")) = false
  /\ _coerce_available_to_bool JNull = false.
Proof.
  assert (Hfalse : forall value,
             _coerce_available_to_bool value = false <-> ~ reads_as_true value).
  { intros value. rewrite <- coerce_true_iff.
    destruct (_coerce_available_to_bool value); split; congruence. }
  repeat split; try reflexivity;
    try (apply coerce_true_iff); try (apply Hfalse).
  intros s Hin. apply Hfalse. intros [E | (s' & E & Hin')]; [discriminate|].
  injection E as <-.
  set (w := PyStr.lower (PyStr.strip s)) in *.
  unfold true_words, false_words in *. simpl in Hin, Hin'.
  repeat match goal with
         | H : _ \/ _ |- _ => destruct H as [H | H]
         | H : False |- _ => destruct H
         end; subst w; rewrite <- Hin in Hin'; discriminate Hin'.
Qed.

(** The theorem at a string that needs trimming and lowering. *)
Lemma coerce_available_witness :
  In (PyStr.lower (PyStr.strip (str " No "))) false_words
  /\ _coerce_available_to_bool (JStr (str " No ")) = false.
Proof.
  split.
  - vm_compute. left. reflexivity.
  - apply (proj1 (proj2 (proj2 (proj2 coerce_available_total_conservative)))).
    vm_compute. left. reflexivity.
Defined.

End Coercion.

(** ** The join *)

Section Merge.

Context {L R : Type} (key_l : L -> pystr) (key_r : R -> pystr).


Lemma merge_app (left1 left2 : list L) (right : list R) :
  merge key_l key_r (left1 ++ left2) right
  = merge key_l key_r left1 right ++ merge key_l key_r left2 right.
Proof. unfold merge. apply flat_map_app. Qed.

Lemma In_merge (left : list L) (right : list R) (l : L) (r : R) :
  In (l, r) (merge key_l key_r left right)
  <-> In l left /\ In r right /\ key_l l = key_r r.
Proof.
  unfold merge. rewrite in_flat_map. split.
  - intros (l' & Hl & Hin). apply in_map_iff in Hin.
    destruct Hin as (r' & E & Hr). injection E as -> ->.
    apply filter_In in Hr. destruct Hr as [Hr Hk].
    apply PyStrFacts.eqb_eq in Hk. auto.
  - intros (Hl & Hr & Hk). exists l. split; [assumption|].
    apply in_map. apply filter_In. split; [assumption|].
    apply PyStrFacts.eqb_eq. assumption.
Qed.

End Merge.

(** Merging the images of two lists is the image of merging the lists. *)
Lemma merge_map {L R L' R' : Type} (f : L -> L') (g : R -> R')
    (key_l : L' -> pystr) (key_r : R' -> pystr)
    (left : list L) (right : list R) :
  merge key_l key_r (map f left) (map g right)
  = map (fun p => (f (fst p), g (snd p)))
        (merge (fun l => key_l (f l)) (fun r => key_r (g r)) left right).
Proof.
  unfold merge. induction left as [|l left IH]; simpl; [reflexivity|].
  rewrite map_app, IH. f_equal.
  clear IH. induction right as [|r right IH]; simpl; [reflexivity|].
  destruct (PyStr.eqb (key_l (f l)) (key_r (g r))); simpl; rewrite IH;
    reflexivity.
Qed.

Section Join.

Variables (courses : list Course.t) (users : list User.t).

(** The frames are built, merged and completed; the result is that of
    joining the entities first and deriving the fields afterwards. *)
Lemma joined_rows_reference (enrollments : list Enrollment.t) :
  joined_rows courses users enrollments
  = reference_rows courses users enrollments.
Proof.
  unfold joined_rows, reference_rows, inner_join, _build_dataframes,
    _join_frames.
  rewrite (merge_map _ _ EnrollmentRow.userId UserRow.userId).
  rewrite (merge_map _ _
             (fun eu : EnrollmentRow.t * UserRow.t =>
                EnrollmentRow.courseInternalId (fst eu))
             CourseRow.courseInternalId).
  rewrite map_map. simpl.
  apply map_ext. intros [[e u] c]. reflexivity.
Qed.

Lemma reference_rows_app (es1 es2 : list Enrollment.t) :
  reference_rows courses users (es1 ++ es2)
  = reference_rows courses users es1 ++ reference_rows courses users es2.
Proof.
  unfold reference_rows, inner_join.
  rewrite !merge_app, map_app. reflexivity.
Qed.

Lemma reference_rows_one (e : Enrollment.t) :
  reference_rows courses users [e]
  = flat_map (fun u => map (row_of e u) (courses_of courses e))
             (users_of users e).
Proof.
  unfold reference_rows, inner_join, users_of, courses_of.
  unfold merge at 2. simpl. rewrite app_nil_r.
  induction (filter _ users) as [|u us IH]; simpl; [reflexivity|].
  unfold merge in *. simpl. rewrite map_app, <- IH. f_equal.
  rewrite map_map. reflexivity.
Qed.

Lemma joined_rows_app (es1 es2 : list Enrollment.t) :
  joined_rows courses users (es1 ++ es2)
  = joined_rows courses users es1 ++ joined_rows courses users es2.
Proof. rewrite !joined_rows_reference. apply reference_rows_app. Qed.

Lemma In_joined_rows (enrollments : list Enrollment.t) (row : Row.t) :
  In row (joined_rows courses users enrollments)
  <-> exists e u c,
        In e enrollments /\ In u users /\ In c courses
        /\ Enrollment.userId e = User.id u
        /\ Enrollment.courseId e = Course.id c
        /\ row = row_of e u c.
Proof.
  rewrite joined_rows_reference. unfold reference_rows, inner_join.
  rewrite in_map_iff. split.
  - intros ([[e u] c] & E & Hin). simpl in E.
    apply In_merge in Hin. destruct Hin as (Heu & Hc & Hk).
    apply In_merge in Heu. destruct Heu as (He & Hu & Hk').
    exists e, u, c. simpl in Hk. auto 10.
  - intros (e & u & c & He & Hu & Hc & Hk & Hk' & ->).
    exists (e, u, c). split; [reflexivity|].
    apply In_merge. split; [|split; [assumption | exact Hk']].
    apply In_merge. auto.
Qed.

End Join.

(** C1: every row of the join carries the id of a user of the input as its
    userId and the id of a course of the input as its course key, and an
    enrollment that names no user or no course of the input leaves no
    trace: the join, a total function, returns what it returns without
    that enrollment. *)
Theorem join_referential_integrity
    (courses : list Course.t) (users : list User.t)
    (enrollments : list Enrollment.t) :
  (forall row, In row (joined_rows courses users enrollments) ->
     (exists u, In u users /\ User.id u = Row.userId row)
     /\ (exists c, In c courses /\ Course.id c = Row.courseInternalId row))
  /\ (forall es1 e es2,
        enrollments = es1 ++ e :: es2 ->
        unresolved courses users e ->
        joined_rows courses users enrollments
        = joined_rows courses users (es1 ++ es2)).
Proof.
  split.
  - intros row Hin. apply In_joined_rows in Hin.
    destruct Hin as (e & u & c & _ & Hu & Hc & Ku & Kc & ->). simpl.
    split; [exists u | exists c]; auto.
  - intros es1 e es2 -> Hun.
    change (e :: es2) with ([e] ++ es2).
    rewrite !joined_rows_app.
    assert (E : joined_rows courses users [e] = []).
    { destruct (joined_rows courses users [e]) as [|row rows] eqn:Erows;
        [reflexivity | exfalso].
      assert (Hin : In row (joined_rows courses users [e]))
        by (rewrite Erows; left; reflexivity).
      apply In_joined_rows in Hin.
      destruct Hin as (e' & u & c & [<- | []] & Hu & Hc & Ku & Kc & _).
      destruct Hun as [Hun | Hun]; [apply (Hun u Hu) | apply (Hun c Hc)];
        congruence. }
    rewrite E. reflexivity.
Qed.

(** The theorem on the first enrollment of the fixture followed by an
    enrollment of an unknown user. *)
Lemma join_referential_integrity_witness :
  (exists u, In u [Sample.user1]
             /\ User.id u
                = Row.userId (row_of Sample.enrollment1 Sample.user1
                                Sample.course1))
  /\ joined_rows [Sample.course1] [Sample.user1]
       [Sample.enrollment1; Sample.orphan]
     = joined_rows [Sample.course1] [Sample.user1] [Sample.enrollment1].
Proof.
  destruct (join_referential_integrity [Sample.course1] [Sample.user1]
              [Sample.enrollment1; Sample.orphan]) as [Hrows Hdrop].
  split.
  - apply (Hrows (row_of Sample.enrollment1 Sample.user1 Sample.course1)).
    vm_compute. left. reflexivity.
  - apply (Hdrop [Sample.enrollment1] Sample.orphan []); [reflexivity|].
    left. intros u [<- | []]. vm_compute. discriminate.
Defined.

(** Two users share an id: the one enrollment that names it has two rows,
    one with each of them, not the single row of the first match. *)
Lemma join_duplicate_keys_counterexample :
  User.id Sample.user1 = User.id Sample.user1_again
  /\ map Row.userName
       (joined_rows [Sample.course1] [Sample.user1; Sample.user1_again]
          [Sample.enrollment1])
     = [str "inst1"; str "inst1b"]
  /\ joined_rows [Sample.course1] [Sample.user1; Sample.user1_again]
       [Sample.enrollment1]
     <> [row_of Sample.enrollment1 Sample.user1 Sample.course1].
Proof.
  split; [reflexivity|]. split; [vm_compute; reflexivity|].
  vm_compute. discriminate.
Qed.

(** C2, amended: the join is a function of its input, and an enrollment
    has one row for every pair of a user and a course of the ids it names,
    in input order with the users first, between the rows of the
    enrollments before it and those of the enrollments after it: as many
    rows as the product of the two numbers of matches, so one row when its
    user id and its course id are each borne once. *)
Theorem join_rows_per_enrollment
    (courses : list Course.t) (users : list User.t)
    (es1 : list Enrollment.t) (e : Enrollment.t) (es2 : list Enrollment.t) :
  joined_rows courses users (es1 ++ e :: es2)
  = joined_rows courses users es1
    ++ flat_map (fun u => map (row_of e u) (courses_of courses e))
                (users_of users e)
    ++ joined_rows courses users es2
  /\ length (flat_map (fun u => map (row_of e u) (courses_of courses e))
                      (users_of users e))
     = length (users_of users e) * length (courses_of courses e).
Proof.
  split.
  - change (e :: es2) with ([e] ++ es2). rewrite !joined_rows_app.
    rewrite (joined_rows_reference courses users [e]), reference_rows_one.
    reflexivity.
  - induction (users_of users e) as [|u us IH]; simpl; [reflexivity|].
    rewrite length_app, length_map, IH. reflexivity.
Qed.

(** The frame of courses that goes into the join already holds the term of
    a course, here of a course that no row of the join carries. *)
Lemma derived_fields_counterexample :
  map CourseRow.term (fst (fst (_build_dataframes [Sample.course1] [] [])))
  = [str "2025FA"]
  /\ joined_rows [Sample.course1] [] [] = [].
Proof. split; vm_compute; reflexivity. Qed.

(** C5, amended: userFullName and courseLabel are computed once per row
    after the join; term is computed once per course while the frame of
    courses is built, before the join; the join compares ids only, and the
    joined output is that of the reference that joins the entities first
    and computes the three derived fields on each surviving row. *)
Theorem derived_fields_reference
    (courses : list Course.t) (users : list User.t)
    (enrollments : list Enrollment.t) :
  joined_rows courses users enrollments
  = reference_rows courses users enrollments
  /\ map CourseRow.term (fst (fst (_build_dataframes courses users enrollments)))
     = map (fun c => term_of (Course.courseId c)) courses.
Proof.
  split; [apply joined_rows_reference|].
  simpl. rewrite map_map. reflexivity.
Qed.

(** ** The role filter *)

Section RoleFilter.

Variable re_compile : regex_engine.

Lemma filter_all {A} (l : list A) : filter (fun _ => true) l = l.
Proof. induction l as [|a l IH]; simpl; [|rewrite IH]; reflexivity. Qed.

Lemma filter_none {A} (l : list A) : filter (fun _ => false) l = [].
Proof. induction l as [|a l IH]; simpl; [reflexivity | exact IH]. Qed.

Lemma role_rule_both (r : Row.t) : role_rule true true r = true.
Proof. unfold role_rule. simpl. apply orb_negb_r. Qed.

(** The last step of [_apply_filters], with its shortcut, keeps the rows
    of the rule. *)
Lemma role_step (include_instructors include_students : bool)
    (df : list Row.t) :
  (if negb (include_instructors && include_students) then
     let is_student r := PyStr.eqb (PyStr.lower (Row.role r)) (str "student") in
     let keep_mask := fun _ : Row.t => false in
     let keep_mask :=
       if include_students then fun r => keep_mask r || is_student r
       else keep_mask in
     let keep_mask :=
       if include_instructors then fun r => keep_mask r || negb (is_student r)
       else keep_mask in
     filter keep_mask df
   else df)
  = filter (role_rule include_instructors include_students) df.
Proof.
  destruct include_instructors, include_students; simpl.
  - symmetry. rewrite <- (filter_all df) at 2.
    apply filter_ext. intros r. apply role_rule_both.
  - apply filter_ext. intros r. reflexivity.
  - apply filter_ext. intros r. unfold role_rule, is_student. simpl.
    rewrite orb_false_r. reflexivity.
  - apply filter_ext. intros r. reflexivity.
Qed.

(** C4: the role filter returns exactly the rows that satisfy
    (include_students and the role is "student" whatever its case) or
    (include_instructors and it is not), after the two filters before
    it and on its own; with both flags the shortcut that filters nothing
    returns what the rule evaluated on every row returns, whatever the
    roles are, and with no flag the result is empty. *)
Theorem role_filter_or_rule (joined_df : list Row.t)
    (course_filter : option pystr)
    (include_instructors include_students only_available : bool) :
  _apply_filters re_compile joined_df course_filter
    include_instructors include_students only_available
  = bind (_apply_filters re_compile joined_df course_filter true true
            only_available)
         (fun df => Ok (filter (role_rule include_instructors include_students)
                          df))
  /\ _apply_filters re_compile joined_df None
       include_instructors include_students false
     = Ok (filter (role_rule include_instructors include_students) joined_df)
  /\ _apply_filters re_compile joined_df None true true false = Ok joined_df
  /\ filter (role_rule true true) joined_df = joined_df
  /\ _apply_filters re_compile joined_df None false false false = Ok [].
Proof.
  assert (Hboth : filter (role_rule true true) joined_df = joined_df).
  { rewrite <- (filter_all joined_df) at 2.
    apply filter_ext. intros r. apply role_rule_both. }
  assert (Hrole : forall ii is_,
             _apply_filters re_compile joined_df None ii is_ false
             = Ok (filter (role_rule ii is_) joined_df)).
  { intros ii is_. unfold _apply_filters. simpl.
    rewrite <- (role_step ii is_ joined_df). reflexivity. }
  split; [|split; [|split; [|split]]].
  - unfold _apply_filters.
    set (df0 := if only_available && _ then _ else joined_df).
    destruct course_filter as [[|ch filter_text]|]; simpl.
    + rewrite <- (role_step _ _ df0). reflexivity.
    + destruct (re_compile _) as [search|]; simpl; [|reflexivity].
      rewrite <- role_step. reflexivity.
    + rewrite <- (role_step _ _ df0). reflexivity.
  - apply Hrole.
  - rewrite Hrole, Hboth. reflexivity.
  - exact Hboth.
  - rewrite Hrole. f_equal. rewrite <- (filter_none joined_df).
    apply filter_ext. intros r. reflexivity.
Qed.

End RoleFilter.

(** ** Dictionaries and fields *)

Module DictFacts.

Lemma key_eqb_eq (a b : Dict.key) : Dict.key_eqb a b = true <-> a = b.
Proof.
  destruct a as [s|], b as [s'|]; simpl;
    try (split; [discriminate | congruence]); try tauto.
  rewrite PyStrFacts.eqb_eq. split; congruence.
Qed.

Lemma key_eqb_refl (a : Dict.key) : Dict.key_eqb a a = true.
Proof. apply key_eqb_eq. reflexivity. Qed.

Lemma key_eqb_neq (a b : Dict.key) : a <> b -> Dict.key_eqb a b = false.
Proof.
  intros N. destruct (Dict.key_eqb a b) eqn:E; [|reflexivity].
  apply key_eqb_eq in E. contradiction.
Qed.

Lemma lookup_set_same (d : Dict.t) (k : Dict.key) (v : json) :
  Dict.lookup (Dict.set d k v) k = Some v.
Proof.
  induction d as [|[k' v'] d IH]; simpl.
  - rewrite key_eqb_refl. reflexivity.
  - destruct (Dict.key_eqb k' k) eqn:E; simpl; rewrite E;
      [reflexivity | exact IH].
Qed.

Lemma lookup_set_other (d : Dict.t) (k k' : Dict.key) (v : json) :
  k <> k' -> Dict.lookup (Dict.set d k v) k' = Dict.lookup d k'.
Proof.
  intros N. induction d as [|[k0 v0] d IH]; simpl.
  - rewrite (key_eqb_neq N). reflexivity.
  - destruct (Dict.key_eqb k0 k) eqn:E; simpl.
    + apply key_eqb_eq in E. subst k0.
      rewrite (key_eqb_neq N). reflexivity.
    + rewrite IH. reflexivity.
Qed.

(** Setting a key adds this key at most. *)
Lemma keywords_ok_set (d : Dict.t) (k : pystr) (v : json) :
  Dict.keywords_ok (Dict.set d (Dict.KStr k) v) = Dict.keywords_ok d.
Proof.
  unfold Dict.keywords_ok, Dict.keys.
  induction d as [|[k0 v0] d IH]; simpl; [reflexivity|].
  destruct (Dict.key_eqb k0 (Dict.KStr k)); simpl; [reflexivity|].
  rewrite IH. reflexivity.
Qed.

(** The dictionary of a JSON object has string keys only. *)
Lemma keywords_ok_of_members (m : list (pystr * json)) :
  Dict.keywords_ok (Dict.of_members m) = true.
Proof.
  unfold Dict.of_members.
  assert (H : forall d, Dict.keywords_ok d = true ->
              Dict.keywords_ok
                (fold_left (fun d kv => Dict.set d (Dict.KStr (fst kv)) (snd kv))
                   m d) = true).
  { induction m as [|[k v] m IH]; intros d Hd; simpl; [exact Hd|].
    apply IH. rewrite keywords_ok_set. exact Hd. }
  apply H. reflexivity.
Qed.

Lemma of_members_snoc (m : list (pystr * json)) (k : pystr) (v : json) :
  Dict.of_members (m ++ [(k, v)]) = Dict.set (Dict.of_members m) (Dict.KStr k) v.
Proof. unfold Dict.of_members. rewrite fold_left_app. reflexivity. Qed.

Lemma required_set_other {A} (d : Dict.t) (k name : pystr) (v : json)
    (schema : json -> vresult A) :
  k <> name ->
  required (Dict.set d (Dict.KStr k) v) name schema = required d name schema.
Proof.
  intros N. unfold required. rewrite lookup_set_other; [reflexivity|].
  congruence.
Qed.

Lemma optional_set_other {A} (d : Dict.t) (k name : pystr) (v : json)
    (default : A) (schema : json -> vresult A) :
  k <> name ->
  optional (Dict.set d (Dict.KStr k) v) name default schema
  = optional d name default schema.
Proof.
  intros N. unfold optional. rewrite lookup_set_other; [reflexivity|].
  congruence.
Qed.

Lemma required_set_same {A} (d : Dict.t) (name : pystr) (v : json)
    (schema : json -> vresult A) :
  required (Dict.set d (Dict.KStr name) v) name schema
  = at_field name (schema v).
Proof. unfold required. rewrite lookup_set_same. reflexivity. Qed.


End DictFacts.

(** ** Roles *)

Section Roles.

Variables (data : Dict.t) (s : pystr).
Hypothesis role_given :
  Dict.lookup data (Dict.KStr (str "role")) = Some (JStr s).

Let role := PyStr.strip s.







End Roles.







(** ** Records without availability *)

Section MissingAvailability.

Variable m : list (pystr * json).

Let item_copy := Dict.of_members m.
Let availability := Dict.KStr (str "availability").
Let normalized := Dict.set item_copy availability not_available.

Hypothesis lacks : lacks_available item_copy.

Lemma raw_available_lacking : raw_available item_copy = Ok JNull.
Proof.
  unfold raw_available, Dict.get. unfold lacks_available in lacks.
  destruct (Dict.lookup item_copy (Dict.KStr (str "availability")))
    as [[ | b | z | f | s' | l | a]|]; try contradiction; try reflexivity.
  destruct a as [|kv a]; [reflexivity|].
  cbn [truthy]. unfold Dict.get. rewrite lacks. reflexivity.
Qed.

Lemma normalize_lacking : normalize (JObj m) = Ok normalized.
Proof.
  unfold normalize. cbn [Dict.dict bind]. fold item_copy.
  rewrite raw_available_lacking. reflexivity.
Qed.

Lemma set_set_same (d : Dict.t) (k : Dict.key) (v : json) :
  Dict.set (Dict.set d k v) k v = Dict.set d k v.
Proof.
  induction d as [|[k' v'] d IH]; simpl.
  - rewrite DictFacts.key_eqb_refl. reflexivity.
  - destruct (Dict.key_eqb k' k) eqn:E; simpl; rewrite E;
      [reflexivity | rewrite IH; reflexivity].
Qed.

Lemma normalize_explicit :
  normalize (JObj (m ++ [(str "availability", not_available)]))
  = Ok normalized.
Proof.
  unfold normalize. cbn [Dict.dict bind].
  rewrite DictFacts.of_members_snoc. fold item_copy availability normalized.
  unfold raw_available, Dict.get, normalized, availability.
  rewrite DictFacts.lookup_set_same. cbn.
  rewrite set_set_same. reflexivity.
Qed.

Lemma availability_field :
  required normalized (str "availability")
    (model_schema AvailabilityBool.validate)
  = Valid unavailable.
Proof.
  unfold normalized, availability. rewrite DictFacts.required_set_same.
  reflexivity.
Qed.

Lemma keywords_normalized : Dict.keywords_ok normalized = true.
Proof.
  unfold normalized, availability. rewrite DictFacts.keywords_ok_set.
  apply DictFacts.keywords_ok_of_members.
Qed.

Lemma course_of_lacking (i ci n : pystr) (d : option pystr) :
  required item_copy (str "id") stripped_str = Valid i ->
  required item_copy (str "courseId") stripped_str = Valid ci ->
  required item_copy (str "name") stripped_str = Valid n ->
  optional item_copy (str "description") None
    (fun v => optional_str_schema (_strip v)) = Valid d ->
  Course.new normalized
  = Ok {| Course.id := i; Course.courseId := ci; Course.name := n;
          Course.description := d; Course.availability := unavailable |}.
Proof.
  intros Hi Hci Hn Hd. unfold Course.new, Course.validate.
  rewrite keywords_normalized, availability_field.
  unfold normalized, availability.
  rewrite !DictFacts.required_set_other, DictFacts.optional_set_other
    by discriminate.
  fold item_copy. rewrite Hi, Hci, Hn, Hd. reflexivity.
Qed.

Lemma user_of_lacking (i un : pystr) (n : UserName.t) (c : Contact.t) :
  required item_copy (str "id") stripped_str = Valid i ->
  required item_copy (str "userName") stripped_str = Valid un ->
  required item_copy (str "name") (model_schema UserName.validate) = Valid n ->
  required item_copy (str "contact") (model_schema Contact.validate)
  = Valid c ->
  User.new normalized
  = Ok {| User.id := i; User.userName := un; User.name := n;
          User.contact := c; User.availability := unavailable |}.
Proof.
  intros Hi Hun Hn Hc. unfold User.new, User.validate.
  rewrite keywords_normalized, availability_field.
  unfold normalized, availability.
  rewrite !DictFacts.required_set_other by discriminate.
  fold item_copy. rewrite Hi, Hun, Hn, Hc. reflexivity.
Qed.

Lemma enrollment_of_lacking (i ui ci r : pystr) (w : log) :
  required item_copy (str "id") stripped_str = Valid i ->
  required item_copy (str "userId") stripped_str = Valid ui ->
  required item_copy (str "courseId") stripped_str = Valid ci ->
  Enrollment.role_field item_copy = (w, Valid r) ->
  Enrollment.new normalized
  = (w, Ok {| Enrollment.id := i; Enrollment.userId := ui;
              Enrollment.courseId := ci; Enrollment.role := r;
              Enrollment.availability := unavailable |}).
Proof.
  intros Hi Hui Hci Hr.
  unfold Enrollment.new, Enrollment.validate, Enrollment.role_field.
  rewrite keywords_normalized, availability_field.
  unfold normalized, availability.
  rewrite !DictFacts.required_set_other by discriminate.
  fold item_copy. unfold Enrollment.role_field in Hr.
  rewrite Hi, Hui, Hci.
  destruct (required item_copy (str "role") stripped_str) as [role|errs];
    simpl in *; [|discriminate].
  injection Hr as <- <-. reflexivity.
Qed.

End MissingAvailability.

(** C10: a raw record whose availability is absent, null, or an object
    without the key available is not rejected for it: the loader puts the
    availability object with available false in its place before the model
    is validated, exactly as for a record that says so; the record then
    validates whenever its other fields do, as a course, a user or an
    enrollment, and is never available. *)
Theorem missing_availability_is_unavailable (m : list (pystr * json)) :
  lacks_available (Dict.of_members m) ->
  let item_copy := Dict.of_members m in
  let normalized :=
    Dict.set item_copy (Dict.KStr (str "availability")) not_available in
  normalize (JObj m) = Ok normalized
  /\ normalize (JObj m)
     = normalize (JObj (m ++ [(str "availability", not_available)]))
  /\ required normalized (str "availability")
       (model_schema AvailabilityBool.validate) = Valid unavailable
  /\ (forall i ci n d,
        required item_copy (str "id") stripped_str = Valid i ->
        required item_copy (str "courseId") stripped_str = Valid ci ->
        required item_copy (str "name") stripped_str = Valid n ->
        optional item_copy (str "description") None
          (fun v => optional_str_schema (_strip v)) = Valid d ->
        Course.new normalized
        = Ok {| Course.id := i; Course.courseId := ci; Course.name := n;
                Course.description := d; Course.availability := unavailable |})
  /\ (forall i un n c,
        required item_copy (str "id") stripped_str = Valid i ->
        required item_copy (str "userName") stripped_str = Valid un ->
        required item_copy (str "name") (model_schema UserName.validate)
        = Valid n ->
        required item_copy (str "contact") (model_schema Contact.validate)
        = Valid c ->
        User.new normalized
        = Ok {| User.id := i; User.userName := un; User.name := n;
                User.contact := c; User.availability := unavailable |})
  /\ (forall i ui ci r w,
        required item_copy (str "id") stripped_str = Valid i ->
        required item_copy (str "userId") stripped_str = Valid ui ->
        required item_copy (str "courseId") stripped_str = Valid ci ->
        Enrollment.role_field item_copy = (w, Valid r) ->
        Enrollment.new normalized
        = (w, Ok {| Enrollment.id := i; Enrollment.userId := ui;
                    Enrollment.courseId := ci; Enrollment.role := r;
                    Enrollment.availability := unavailable |})).
Proof.
  intros lacks item_copy normalized.
  split; [apply normalize_lacking; exact lacks|].
  split; [rewrite normalize_explicit; apply normalize_lacking; exact lacks|].
  split; [apply availability_field|].
  split; [|split].
  - intros i ci n d. apply course_of_lacking.
  - intros i un n c. apply user_of_lacking.
  - intros i ui ci r w. apply enrollment_of_lacking.
Qed.

(** The theorem on the enrollment record of the test of unknown roles,
    which has no availability. *)
Lemma missing_availability_witness :
  normalize Sample.raw_enrollment_super
  = Ok (Dict.set
          (Dict.of_members
             [(str "id", JStr (str "_x_1")); (str "userId", JStr (str "_u_1"));
              (str "courseId", JStr (str "_c_1"));
              (str "type", JStr (str "SuperType"));
              (str "role", JStr (str " SuperRole "))])
          (Dict.KStr (str "availability")) not_available).
Proof.
  apply (@missing_availability_is_unavailable
           [(str "id", JStr (str "_x_1")); (str "userId", JStr (str "_u_1"));
            (str "courseId", JStr (str "_c_1"));
            (str "type", JStr (str "SuperType"));
            (str "role", JStr (str " SuperRole "))]).
  vm_compute. exact I.
Defined.

(** ** Loading *)

Section MapResult.

Context {A B : Type} (f : A -> result B).

Lemma map_result_app (l1 l2 : list A) (b1 b2 : list B) :
  map_result f l1 = Ok b1 ->
  map_result f l2 = Ok b2 ->
  map_result f (l1 ++ l2) = Ok (b1 ++ b2).
Proof.
  revert b1. induction l1 as [|a l1 IH]; intros b1; simpl.
  - intros E. injection E as <-. auto.
  - destruct (f a) as [b|x]; simpl; [|discriminate].
    destruct (map_result f l1) as [bs|x]; simpl; [|discriminate].
    intros E H2. injection E as <-.
    rewrite (IH bs eq_refl H2). reflexivity.
Qed.

Lemma map_result_length (l : list A) (bs : list B) :
  map_result f l = Ok bs -> length bs = length l.
Proof.
  revert bs. induction l as [|a l IH]; intros bs; simpl.
  - intros E. injection E as <-. reflexivity.
  - destruct (f a) as [b|x]; simpl; [|discriminate].
    destruct (map_result f l) as [bs'|x]; simpl; [|discriminate].
    intros E. injection E as <-. simpl. rewrite (IH bs' eq_refl). reflexivity.
Qed.

End MapResult.

Lemma bind_ok {A B} (r : result A) (k : A -> result B) (b : B) :
  bind r k = Ok b -> exists a, r = Ok a /\ k a = Ok b.
Proof. destruct r as [a|x]; simpl; [eauto | discriminate]. Qed.

(** The courses and the users of the sample that share an id load. *)
Lemma unique_ids_counterexample :
  load_courses Sample.duplicate_ids
  = Ok [Sample.course1; Sample.course1_again]
  /\ Course.id Sample.course1 = Course.id Sample.course1_again
  /\ load_users Sample.duplicate_ids = Ok [Sample.user1; Sample.user1_again]
  /\ User.id Sample.user1 = User.id Sample.user1_again.
Proof. repeat split; vm_compute; reflexivity. Qed.

(** C7, amended: a load validates the elements of the array one by one and
    returns one entity for each, in the order of the file; ids are trimmed
    and never compared with each other, so two arrays that load load again
    when put together, and an array put together with itself loads with
    every id twice. *)
Theorem load_is_elementwise (raw1 raw2 : list json) :
  (forall cs1 cs2,
     load_courses (array_file raw1) = Ok cs1 ->
     load_courses (array_file raw2) = Ok cs2 ->
     load_courses (array_file (raw1 ++ raw2)) = Ok (cs1 ++ cs2)
     /\ length cs1 = length raw1)
  /\ (forall us1 us2,
        load_users (array_file raw1) = Ok us1 ->
        load_users (array_file raw2) = Ok us2 ->
        load_users (array_file (raw1 ++ raw2)) = Ok (us1 ++ us2)
        /\ length us1 = length raw1).
Proof.
  split.
  - intros cs1 cs2 H1 H2. unfold load_courses, array_file in *.
    cbn [_read_json_array bind] in *.
    apply bind_ok in H1. destruct H1 as (n1 & N1 & C1).
    apply bind_ok in H2. destruct H2 as (n2 & N2 & C2).
    rewrite (map_result_app _ _ _ N1 N2). cbn [bind]. split.
    + apply map_result_app; assumption.
    + rewrite (map_result_length _ _ C1). apply (map_result_length _ _ N1).
  - intros us1 us2 H1 H2. unfold load_users, array_file in *.
    cbn [_read_json_array bind] in *.
    apply bind_ok in H1. destruct H1 as (n1 & N1 & C1).
    apply bind_ok in H2. destruct H2 as (n2 & N2 & C2).
    rewrite (map_result_app _ _ _ N1 N2). cbn [bind]. split.
    + apply map_result_app; assumption.
    + rewrite (map_result_length _ _ C1). apply (map_result_length _ _ N1).
Qed.

(** The theorem on the record of the first course, put after itself. *)
Lemma load_is_elementwise_witness :
  load_courses (array_file [Sample.raw_course1; Sample.raw_course1])
  = Ok [Sample.course1; Sample.course1]
  /\ length [Sample.course1] = length [Sample.raw_course1].
Proof.
  apply (proj1 (load_is_elementwise [Sample.raw_course1] [Sample.raw_course1])
           [Sample.course1] [Sample.course1]);
    vm_compute; reflexivity.
Defined.

(** ** Runs *)

(** What the loaders and the filters raise is not an exception of the
    output stage. *)
Lemma map_result_raises {A B} (f : A -> result B) (P : exn -> Prop)
    (l : list A) (e : exn) :
  (forall a x, f a = Raise x -> P x) -> map_result f l = Raise e -> P e.
Proof.
  intros Hf. induction l as [|a l IH]; simpl; [discriminate|].
  destruct (f a) as [b|x] eqn:Ea; simpl.
  - destruct (map_result f l) as [bs|x]; simpl; [discriminate|].
    intros [= <-]. apply IH. reflexivity.
  - intros [= <-]. eapply Hf, Ea.
Qed.

Lemma read_raises (files : directory) (name : pystr) (e : exn) :
  _read_json_array files name = Raise e -> raised_by_output e = false.
Proof.
  unfold _read_json_array.
  destruct (files name) as [ | | [ | | | | | | ]]; intros [= <-]; reflexivity.
Qed.

Lemma pair_of_raises (element : json) (e : exn) :
  Dict.pair_of element = Raise e -> raised_by_output e = false.
Proof.
  unfold Dict.pair_of.
  repeat match goal with
         | |- context [match ?c with _ => _ end] => destruct c
         end; intros [= <-]; reflexivity.
Qed.

Lemma update_raises (elements : list json) (d : Dict.t) (e : exn) :
  Dict.update d elements = Raise e -> raised_by_output e = false.
Proof.
  revert d. induction elements as [|x elements IH]; intros d; simpl;
    [discriminate|].
  destruct (Dict.pair_of x) as [kv|x'] eqn:Ep; simpl.
  - apply IH.
  - intros [= <-]. eapply pair_of_raises, Ep.
Qed.

Lemma normalize_raises (item : json) (e : exn) :
  normalize item = Raise e -> raised_by_output e = false.
Proof.
  unfold normalize.
  destruct (Dict.dict item) as [d|x] eqn:Ed; simpl.
  - unfold raw_available.
    destruct (if truthy _ then _ else _); simpl; intros [= <-]; reflexivity.
  - intros [= <-]. destruct item as [ | | | | [|c s] | elements | m];
      simpl in Ed; try (injection Ed as <-; reflexivity); try discriminate Ed.
    eapply update_raises, Ed.
Qed.

Lemma load_courses_raises (files : directory) (e : exn) :
  load_courses files = Raise e -> raised_by_output e = false.
Proof.
  unfold load_courses.
  destruct (_read_json_array _ _) as [raw|x] eqn:Er; simpl;
    [|intros [= <-]; eapply read_raises, Er].
  destruct (map_result normalize raw) as [normalized|x] eqn:En; simpl;
    [|intros [= <-];
      eapply (@map_result_raises _ _ normalize
                (fun x => raised_by_output x = false));
      [apply normalize_raises | exact En]].
  apply (@map_result_raises _ _ Course.new
           (fun x => raised_by_output x = false)).
  intros a x. unfold Course.new.
  destruct (Dict.keywords_ok a); [destruct (Course.validate a)|];
    intros [= <-]; reflexivity.
Qed.

Lemma load_users_raises (files : directory) (e : exn) :
  load_users files = Raise e -> raised_by_output e = false.
Proof.
  unfold load_users.
  destruct (_read_json_array _ _) as [raw|x] eqn:Er; simpl;
    [|intros [= <-]; eapply read_raises, Er].
  destruct (map_result normalize raw) as [normalized|x] eqn:En; simpl;
    [|intros [= <-];
      eapply (@map_result_raises _ _ normalize
                (fun x => raised_by_output x = false));
      [apply normalize_raises | exact En]].
  apply (@map_result_raises _ _ User.new
           (fun x => raised_by_output x = false)).
  intros a x. unfold User.new.
  destruct (Dict.keywords_ok a); [destruct (User.validate a)|];
    intros [= <-]; reflexivity.
Qed.

Lemma new_enrollments_raises (normalized : list Dict.t) (e : exn) :
  snd (new_enrollments normalized) = Raise e -> raised_by_output e = false.
Proof.
  induction normalized as [|item rest IH]; simpl; [discriminate|].
  destruct (Enrollment.new item) as [lg [en|x]] eqn:En.
  - destruct (new_enrollments rest) as [lg' [es|x]]; simpl in *;
      [discriminate|].
    intros [= <-]. apply IH. reflexivity.
  - simpl. intros [= <-]. revert En. unfold Enrollment.new.
    destruct (Dict.keywords_ok item);
      [destruct (Enrollment.validate item) as [lg' [en|errs]]|];
      intros [= _ <-]; reflexivity.
Qed.

Lemma load_enrollments_raises (files : directory) (e : exn) :
  snd (load_enrollments files) = Raise e -> raised_by_output e = false.
Proof.
  unfold load_enrollments.
  destruct (_read_json_array _ _) as [raw|x] eqn:Er; simpl;
    [|intros [= <-]; eapply read_raises, Er].
  destruct (map_result normalize raw) as [normalized|x] eqn:En; simpl;
    [|intros [= <-];
      eapply (@map_result_raises _ _ normalize
                (fun x => raised_by_output x = false));
      [apply normalize_raises | exact En]].
  apply new_enrollments_raises.
Qed.

Lemma apply_filters_raises (compile : regex_engine) (df : list Row.t)
    (course_filter : option pystr)
    (include_instructors include_students only_available : bool) (e : exn) :
  _apply_filters compile df course_filter include_instructors
    include_students only_available = Raise e ->
  e = ReError.
Proof.
  unfold _apply_filters.
  destruct course_filter as [[|c filter_text]|]; simpl; try discriminate.
  destruct (compile _); simpl; [discriminate|]. intros [= <-]. reflexivity.
Qed.

Ltac run_steps :=
  unfold generate_report, io_bind, lift, logging, mkdir, to_csv, write_text,
    write, ret, _render_html;
  cbn [fst snd]; unfold _build_dataframes; cbv beta iota zeta.

Ltac run_cases :=
  repeat match goal with
         | |- context [match template ?e with Some _ => _ | None => _ end] =>
             destruct (template e) eqn:?; cbn [fst snd]
         | |- context [if ?c then _ else _] => destruct c eqn:?; cbn [fst snd]
         end.

Section Runs.

Variables (env : environment) (files : directory) (data_dir out_dir : pystr)
          (course_filter : option pystr)
          (include_instructors include_students only_available : bool)
          (w : world).

Let run :=
  generate_report env files data_dir out_dir course_filter
    include_instructors include_students only_available w.

(** A run that raises anything but the exception of the template or of the
    encoding has not reached the output directory. *)
Lemma raise_before_output (e : exn) :
  snd run = Raise e ->
  raised_by_output e = false ->
  out_files (fst run) = out_files w
  /\ out_dir_exists (fst run) = out_dir_exists w.
Proof.
  unfold run. run_steps.
  destruct (load_courses files) as [cs|x]; cbn [fst snd]; [|auto].
  destruct (load_users files) as [us|x]; cbn [fst snd]; [|auto].
  destruct (load_enrollments files) as [lg [es|x]]; cbn [fst snd]; [|auto].
  destruct (_apply_filters _ _ _ _ _ _) as [df|x]; cbn [fst snd]; [|auto].
  run_cases; intros [= <-] N; discriminate N.
Qed.

(** A run that raises the exception of the template or of the encoding has
    created the output directory and opened the CSV file. *)
Lemma raise_after_mkdir (e : exn) :
  snd run = Raise e ->
  raised_by_output e = true ->
  out_dir_exists (fst run) = true
  /\ exists frame,
       read (out_files (fst run)) (str "enrollment_report.csv")
       = Some (CsvFile frame).
Proof.
  unfold run. run_steps.
  destruct (load_courses files) as [cs|x] eqn:Ec; cbn [fst snd];
    [|intros [= <-] H; apply load_courses_raises in Ec; congruence].
  destruct (load_users files) as [us|x] eqn:Eu; cbn [fst snd];
    [|intros [= <-] H; apply load_users_raises in Eu; congruence].
  destruct (load_enrollments files) as [lg [es|x]] eqn:Ee; cbn [fst snd];
    [|intros [= <-] H;
      pose proof (@load_enrollments_raises files x) as Hx;
      rewrite Ee in Hx; specialize (Hx eq_refl); congruence].
  destruct (_apply_filters _ _ _ _ _ _) as [df|x] eqn:Ef; cbn [fst snd].
  - run_cases; intros E _; try discriminate E;
      (split; [reflexivity | eexists; reflexivity]).
  - intros [= <-] H. apply apply_filters_raises in Ef. subst x.
    discriminate H.
Qed.

Lemma load_failure_writes_nothing :
  load_fails files ->
  exists e, snd run = Raise e
            /\ out_files (fst run) = out_files w
            /\ out_dir_exists (fst run) = out_dir_exists w.
Proof.
  unfold run, generate_report, io_bind, lift, logging.
  intros Hfails.
  destruct (load_courses files) as [cs|x] eqn:Ec; simpl; [|eauto].
  destruct (load_users files) as [us|x] eqn:Eu; simpl; [|eauto].
  destruct (load_enrollments files) as [lg [es|x]] eqn:Ee; simpl; [|eauto].
  destruct Hfails as [[e E] | [[e E] | [e E]]]; try congruence.
  rewrite Ee in E. discriminate E.
Qed.

(** A filter that raises ends the run before the output directory. *)
Lemma filter_failure_writes_nothing (cs : list Course.t) (us : list User.t)
    (es : list Enrollment.t) (e : exn) :
  load_courses files = Ok cs ->
  load_users files = Ok us ->
  snd (load_enrollments files) = Ok es ->
  _apply_filters (re_compile env) (joined_rows cs us es) course_filter
    include_instructors include_students only_available = Raise e ->
  snd run = Raise e
  /\ out_files (fst run) = out_files w
  /\ out_dir_exists (fst run) = out_dir_exists w.
Proof.
  unfold run. run_steps. intros -> ->.
  destruct (load_enrollments files) as [lg es']. cbn [fst snd].
  intros -> Hf.
  match goal with
  | |- context [_apply_filters _ ?J] =>
      change J with (joined_rows cs us es)
  end.
  rewrite Hf. cbn [fst snd out_files out_dir_exists]. auto.
Qed.

(** A run that returns has written the three files, the CSV file first
    and the audit last. *)
Lemma success_writes_all (paths : pystr * pystr * pystr) :
  snd run = Ok paths ->
  exists frame content audit,
    out_files (fst run)
    = (str "audit.json", JsonFile audit)
      :: (str "enrollment_report.html", TextFile content)
      :: (str "enrollment_report.csv", CsvFile frame)
      :: out_files w.
Proof.
  unfold run. run_steps.
  destruct (load_courses files) as [cs|x]; cbn [fst snd]; [|discriminate].
  destruct (load_users files) as [us|x]; cbn [fst snd]; [|discriminate].
  destruct (load_enrollments files) as [lg [es|x]]; cbn [fst snd];
    [|discriminate].
  destruct (_apply_filters _ _ _ _ _ _) as [df|x]; cbn [fst snd];
    [|discriminate].
  run_cases; intros E; try discriminate E; cbn [out_files]; eauto.
Qed.

(** A file that cannot be read as an array makes its loader raise. *)
Lemma unreadable_file_fails (name : pystr) :
  In name data_files -> not_an_array (files name) -> load_fails files.
Proof.
  unfold data_files, load_fails, load_courses, load_users, load_enrollments,
    _read_json_array.
  intros [<- | [<- | [<- | []]]] Hf;
    [left | right; left | right; right];
    destruct (files _) as [ | | [ | | | | | | ]]; simpl in *;
      try contradiction; eauto.
Qed.

End Runs.

(** One output of three: the template is not there, the three files hold
    empty arrays, and the run raises after it has written the CSV file. *)
Lemma all_or_nothing_counterexample :
  let run :=
    generate_report Sample.without_template (array_file [])
      (str "data") (str "out") None true true false Sample.fresh in
  snd run = Raise TemplateNotFound
  /\ out_files (fst run) = [(str "enrollment_report.csv", CsvFile empty_csv)]
  /\ read (out_files (fst run)) (str "enrollment_report.html") = None
  /\ read (out_files (fst run)) (str "audit.json") = None.
Proof. repeat split; vm_compute; reflexivity. Qed.

(** C6, amended: a fatal error of the load, that is a missing input file,
    a top-level JSON value that is not an array or a record that fails
    validation, aborts the run before the output directory is created or
    any output file written, and so does a filter that raises, and every
    exception other than those of the output stage, the template that is
    not there and the text that UTF-8 cannot encode; a run that raises one
    of these two has created the output directory and opened the CSV file;
    a run that returns has written the three files.  The files are written
    one after the other, the CSV file first, and what is written stays. *)
Theorem fatal_errors_precede_output
    (env : environment) (files : directory) (data_dir out_dir : pystr)
    (course_filter : option pystr)
    (include_instructors include_students only_available : bool) (w : world) :
  let run :=
    generate_report env files data_dir out_dir course_filter
      include_instructors include_students only_available w in
  (forall name, In name data_files -> not_an_array (files name) ->
                load_fails files)
  /\ (load_fails files ->
      exists e, snd run = Raise e
                /\ out_files (fst run) = out_files w
                /\ out_dir_exists (fst run) = out_dir_exists w)
  /\ (forall cs us es e,
        load_courses files = Ok cs ->
        load_users files = Ok us ->
        snd (load_enrollments files) = Ok es ->
        _apply_filters (re_compile env) (joined_rows cs us es) course_filter
          include_instructors include_students only_available = Raise e ->
        snd run = Raise e
        /\ out_files (fst run) = out_files w
        /\ out_dir_exists (fst run) = out_dir_exists w)
  /\ (forall e, snd run = Raise e ->
                e <> TemplateNotFound -> e <> UnicodeEncodeError ->
                out_files (fst run) = out_files w
                /\ out_dir_exists (fst run) = out_dir_exists w)
  /\ (forall e, snd run = Raise e ->
                e = TemplateNotFound \/ e = UnicodeEncodeError ->
                out_dir_exists (fst run) = true
                /\ exists frame,
                     read (out_files (fst run)) (str "enrollment_report.csv")
                     = Some (CsvFile frame))
  /\ (forall paths, snd run = Ok paths ->
        exists frame content audit,
          out_files (fst run)
          = (str "audit.json", JsonFile audit)
            :: (str "enrollment_report.html", TextFile content)
            :: (str "enrollment_report.csv", CsvFile frame)
            :: out_files w).
Proof.
  intros run. split; [|split; [|split; [|split; [|split]]]].
  - apply unreadable_file_fails.
  - apply load_failure_writes_nothing.
  - apply filter_failure_writes_nothing.
  - intros e E N1 N2. apply (@raise_before_output env files data_dir out_dir
      course_filter include_instructors include_students only_available w e E).
    destruct e; try reflexivity; congruence.
  - intros e E H. apply (@raise_after_mkdir env files data_dir out_dir
      course_filter include_instructors include_students only_available w e E).
    destruct H as [-> | ->]; reflexivity.
  - apply success_writes_all.
Qed.

(** The theorem on a data directory without [users.json]. *)
Lemma fatal_errors_precede_output_witness :
  exists e,
    snd (generate_report Sample.with_template Sample.no_users_file
           (str "data") (str "out") None true true false Sample.fresh)
    = Raise e
    /\ out_files
         (fst (generate_report Sample.with_template Sample.no_users_file
                 (str "data") (str "out") None true true false Sample.fresh))
       = out_files Sample.fresh
    /\ out_dir_exists
         (fst (generate_report Sample.with_template Sample.no_users_file
                 (str "data") (str "out") None true true false Sample.fresh))
       = out_dir_exists Sample.fresh.
Proof.
  destruct (fatal_errors_precede_output Sample.with_template
              Sample.no_users_file (str "data") (str "out") None true true
              false Sample.fresh) as (Hfile & Hload & _).
  apply Hload. apply (Hfile (str "users.json")).
  - right. left. reflexivity.
  - exact I.
Defined.

(** ** Empty input *)






(** ** The three filters together *)

Lemma filter_twice {A} (p q : A -> bool) (l : list A) :
  filter p (filter q l) = filter (fun x => q x && p x) l.
Proof.
  induction l as [|a l IH]; simpl; [reflexivity|].
  destruct (q a); simpl; [destruct (p a)|]; rewrite IH; reflexivity.
Qed.

(** The availability step, with its test for an empty frame. *)
Lemma availability_step (only_available : bool) (df : list Row.t) :
  (if only_available && negb (match df with [] => true | _ => false end)
   then filter (fun r => Row.courseAvailable r && Row.userAvailable r
                         && Row.enrollmentAvailable r) df
   else df)
  = filter (fun r => negb only_available || all_available r) df.
Proof.
  destruct only_available; simpl.
  - destruct df as [|r df]; reflexivity.
  - symmetry. apply filter_all.
Qed.

(** The course step, for a filter that compiles. *)
Lemma course_step (re_compile : regex_engine) (course_filter : option pystr)
    (search : option (pystr -> bool)) (df : list Row.t) :
  compiled re_compile course_filter = Some search ->
  match course_filter with
  | Some ((_ :: _) as filter_text) =>
      let needle := PyStr.lower filter_text in
      match re_compile needle with
      | Some found =>
          Ok (filter (fun r => found (PyStr.lower (Row.courseId r))
                               || found (PyStr.lower (Row.courseName r)))
                     df)
      | None => Raise ReError
      end
  | _ => Ok df
  end
  = Ok (filter (fun r => match search with
                         | Some found => course_matches found r
                         | None => true
                         end) df).
Proof.
  unfold compiled.
  destruct course_filter as [[|ch filter_text]|].
  - intros E. injection E as <-. rewrite filter_all. reflexivity.
  - cbv zeta. destruct (re_compile _) as [found|]; simpl; [|discriminate].
    intros E. injection E as <-. reflexivity.
  - intros E. injection E as <-. rewrite filter_all. reflexivity.
Qed.

Lemma apply_filters_steps (re_compile : regex_engine) (df : list Row.t)
    (course_filter : option pystr) (search : option (pystr -> bool))
    (include_instructors include_students only_available : bool) :
  compiled re_compile course_filter = Some search ->
  _apply_filters re_compile df course_filter include_instructors
    include_students only_available
  = Ok (filter (role_rule include_instructors include_students)
          (filter (fun r => match search with
                            | Some found => course_matches found r
                            | None => true
                            end)
             (filter (fun r => negb only_available || all_available r) df))).
Proof.
  intros Hc. unfold _apply_filters.
  rewrite availability_step, (@course_step _ _ _ _ Hc). cbn [bind].
  rewrite role_step. reflexivity.
Qed.

(** X1: the availability, course and role filters compose as one
    conjunction: when the course filter is absent, empty, or compiles, the
    result is the input rows that pass all three tests, in input order,
    and an empty filter string filters nothing. *)
Theorem filters_keep_conjunction (re_compile : regex_engine) (df : list Row.t)
    (course_filter : option pystr) (search : option (pystr -> bool))
    (include_instructors include_students only_available : bool) :
  compiled re_compile course_filter = Some search ->
  _apply_filters re_compile df course_filter include_instructors
    include_students only_available
  = Ok (filter (keeps search include_instructors include_students
                  only_available) df)
  /\ _apply_filters re_compile df (Some []) include_instructors
       include_students only_available
     = _apply_filters re_compile df None include_instructors
         include_students only_available.
Proof.
  intros Hc. split; [|reflexivity].
  rewrite (@apply_filters_steps _ _ _ _ _ _ _ Hc), !filter_twice.
  f_equal. apply filter_ext. intros r. unfold keeps.
  rewrite andb_assoc. reflexivity.
Qed.

Lemma filters_keep_conjunction_witness :
  _apply_filters Sample.literal_patterns
    (joined_rows Sample.courses Sample.users Sample.enrollments)
    (Some (str "cs101")) true false true
  = Ok [row_of Sample.enrollment1 Sample.user1 Sample.course1].
Proof.
  destruct (@filters_keep_conjunction Sample.literal_patterns
              (joined_rows Sample.courses Sample.users Sample.enrollments)
              (Some (str "cs101"))
              (Some (PyStr.contains (PyStr.lower (str "cs101"))))
              true false true) as [H _]; [reflexivity|].
  rewrite H. vm_compute. reflexivity.
Defined.

(** X2: filtering is idempotent: the filters applied again, with the same
    parameters, to the rows they kept keep them all. *)
Theorem filters_idempotent (re_compile : regex_engine) (df out : list Row.t)
    (course_filter : option pystr)
    (include_instructors include_students only_available : bool) :
  _apply_filters re_compile df course_filter include_instructors
    include_students only_available = Ok out ->
  _apply_filters re_compile out course_filter include_instructors
    include_students only_available = Ok out.
Proof.
  intros H.
  destruct (compiled re_compile course_filter) as [search|] eqn:Hc.
  - rewrite (@apply_filters_steps _ _ _ _ _ _ _ Hc) in H. injection H as <-.
    rewrite (@apply_filters_steps _ _ _ _ _ _ _ Hc), !filter_twice.
    f_equal. apply filter_ext. intros r.
    destruct (negb only_available || all_available r); simpl; [|reflexivity].
    destruct (match search with Some found => course_matches found r
                              | None => true end); simpl; [|reflexivity].
    destruct (role_rule include_instructors include_students r); reflexivity.
  - exfalso. unfold compiled in Hc. unfold _apply_filters in H.
    destruct course_filter as [[|ch filter_text]|]; try discriminate.
    destruct (re_compile _); discriminate.
Qed.

Lemma filters_idempotent_witness :
  _apply_filters Sample.literal_patterns
    [row_of Sample.enrollment1 Sample.user1 Sample.course1]
    (Some (str "cs101")) true false true
  = Ok [row_of Sample.enrollment1 Sample.user1 Sample.course1].
Proof.
  apply (@filters_idempotent Sample.literal_patterns
           (joined_rows Sample.courses Sample.users Sample.enrollments)).
  vm_compute. reflexivity.
Defined.

(** ** More on the join *)

(** X3: the join loses no enrollment that can be resolved: an enrollment
    of the input, with a user and a course of the input that bear the ids
    it names, has its row in the result. *)
Theorem join_keeps_resolved (courses : list Course.t) (users : list User.t)
    (enrollments : list Enrollment.t)
    (e : Enrollment.t) (u : User.t) (c : Course.t) :
  In e enrollments -> In u users -> In c courses ->
  Enrollment.userId e = User.id u ->
  Enrollment.courseId e = Course.id c ->
  In (row_of e u c) (joined_rows courses users enrollments).
Proof.
  intros He Hu Hc Ku Kc. apply In_joined_rows.
  exists e, u, c. repeat split; assumption.
Qed.

Lemma join_keeps_resolved_witness :
  In (row_of Sample.enrollment3 Sample.user3 Sample.course2)
     (joined_rows Sample.courses Sample.users Sample.enrollments).
Proof.
  apply join_keeps_resolved; try reflexivity.
  - right. right. left. reflexivity.
  - right. right. left. reflexivity.
  - right. left. reflexivity.
Defined.

Section UniqueKeys.

Context {A : Type} (key : A -> pystr).

Lemma filter_key_absent (k : pystr) (l : list A) :
  ~ In k (map key l) -> filter (fun x => PyStr.eqb k (key x)) l = [].
Proof.
  induction l as [|a l IH]; simpl; [reflexivity|].
  intros N. destruct (PyStr.eqb k (key a)) eqn:E.
  - apply PyStrFacts.eqb_eq in E. exfalso. apply N. left. congruence.
  - apply IH. intros H. apply N. right. exact H.
Qed.

Lemma filter_key_unique (k : pystr) (l : list A) :
  NoDup (map key l) ->
  length (filter (fun x => PyStr.eqb k (key x)) l) <= 1.
Proof.
  induction l as [|a l IH]; simpl; [lia|].
  intros ND. inversion ND as [|x xs Hnotin ND']. subst.
  destruct (PyStr.eqb k (key a)) eqn:E.
  - apply PyStrFacts.eqb_eq in E. subst k.
    rewrite (filter_key_absent _ _ Hnotin). simpl. lia.
  - apply IH. exact ND'.
Qed.

End UniqueKeys.

Lemma length_rows_of_one (courses : list Course.t) (users : list User.t)
    (e : Enrollment.t) :
  length (joined_rows courses users [e])
  = length (users_of users e) * length (courses_of courses e).
Proof.
  rewrite joined_rows_reference, reference_rows_one.
  induction (users_of users e) as [|u us IH]; simpl; [reflexivity|].
  rewrite length_app, length_map, IH. reflexivity.
Qed.

(** X4: when no two users and no two courses share an id, an enrollment
    has at most one row, and the join has at most as many rows as there
    are enrollments. *)
Theorem join_unique_keys (courses : list Course.t) (users : list User.t)
    (enrollments : list Enrollment.t) :
  NoDup (map User.id users) ->
  NoDup (map Course.id courses) ->
  (forall e, length (joined_rows courses users [e]) <= 1)
  /\ length (joined_rows courses users enrollments) <= length enrollments.
Proof.
  intros Hu Hc.
  assert (Hone : forall e, length (joined_rows courses users [e]) <= 1).
  { intros e. rewrite length_rows_of_one.
    pose proof (filter_key_unique User.id (Enrollment.userId e) users Hu).
    pose proof (filter_key_unique Course.id (Enrollment.courseId e) courses Hc).
    unfold users_of, courses_of. nia. }
  split; [exact Hone|].
  induction enrollments as [|e es IH]; [reflexivity|].
  change (e :: es) with ([e] ++ es).
  rewrite joined_rows_app, length_app. specialize (Hone e).
  simpl length at 3. lia.
Qed.

Lemma join_unique_keys_witness :
  length (joined_rows Sample.courses Sample.users
            (Sample.orphan :: Sample.enrollments))
  <= length (Sample.orphan :: Sample.enrollments).
Proof.
  apply join_unique_keys.
  - vm_compute. repeat constructor; simpl; intuition discriminate.
  - vm_compute. repeat constructor; simpl; intuition discriminate.
Defined.

(** ** The term of a course *)

Section Split.

Variable sep : N.

Lemma split_not_nil (s : pystr) : PyStr.split sep s <> [].
Proof.
  destruct s as [|c s]; simpl; [discriminate|].
  destruct (N.eqb c sep); [discriminate|].
  destruct (PyStr.split sep s); discriminate.
Qed.

(** A string without the separator is its own single piece. *)
Lemma split_without (s : pystr) : ~ In sep s -> PyStr.split sep s = [s].
Proof.
  induction s as [|c s IH]; simpl; [reflexivity|].
  intros N. destruct (N.eqb c sep) eqn:E.
  - apply N.eqb_eq in E. exfalso. apply N. left. exact E.
  - rewrite IH; [reflexivity|]. intros H. apply N. right. exact H.
Qed.

(** A string of one piece has no separator. *)
Lemma split_single (s w : pystr) : PyStr.split sep s = [w] -> ~ In sep s.
Proof.
  revert w. induction s as [|c s IH]; simpl; [tauto|].
  intros w. destruct (N.eqb c sep) eqn:E.
  - destruct (PyStr.split sep s) as [|x xs] eqn:Es;
      [exfalso; exact (split_not_nil _ Es) | discriminate].
  - destruct (PyStr.split sep s) as [|x xs] eqn:Es;
      [exfalso; exact (split_not_nil _ Es)|].
    destruct xs; [|discriminate]. intros _ [H | H].
    + apply N.eqb_neq in E. congruence.
    + exact (IH x eq_refl H).
Qed.

(** The last piece has no separator in it. *)
Lemma last_split_clean (s : pystr) : ~ In sep (last (PyStr.split sep s) []).
Proof.
  induction s as [|c s IH]; simpl; [tauto|].
  destruct (N.eqb c sep) eqn:E.
  - destruct (PyStr.split sep s) as [|w ws] eqn:Es;
      [exfalso; exact (split_not_nil _ Es) | exact IH].
  - destruct (PyStr.split sep s) as [|w ws] eqn:Es;
      [exfalso; exact (split_not_nil _ Es)|].
    destruct ws as [|w' ws].
    + simpl in *. intros [H | H]; [|exact (IH H)].
      apply N.eqb_neq in E. congruence.
    + exact IH.
Qed.

(** With a separator in it, the string ends with the separator and the
    last piece. *)
Lemma last_split_suffix (s : pystr) :
  In sep s -> exists p, s = p ++ sep :: last (PyStr.split sep s) [].
Proof.
  induction s as [|c s IH]; simpl; [tauto|].
  destruct (N.eqb c sep) eqn:E.
  - intros _. apply N.eqb_eq in E. subst c.
    destruct (PyStr.split sep s) as [|w ws] eqn:Es;
      [exfalso; exact (split_not_nil _ Es)|].
    destruct (in_dec N.eq_dec sep s) as [Hin | Hout].
    + destruct (IH Hin) as (p & Hp). exists (sep :: p).
      change (last ([] :: w :: ws) []) with (last (w :: ws) []).
      cbn [app]. f_equal. exact Hp.
    + rewrite (split_without _ Hout) in Es. injection Es as <- <-.
      exists []. reflexivity.
  - intros [H | Hin]; [apply N.eqb_neq in E; congruence|].
    destruct (IH Hin) as (p & Hp).
    destruct (PyStr.split sep s) as [|w ws] eqn:Es;
      [exfalso; exact (split_not_nil _ Es)|].
    destruct ws as [|w' ws].
    + exfalso. exact (split_single _ Es Hin).
    + exists (c :: p).
      change (last ((c :: w) :: w' :: ws) []) with (last (w :: w' :: ws) []).
      cbn [app]. f_equal. exact Hp.
Qed.

End Split.

Lemma contains_char (c : N) (s : pystr) :
  PyStr.contains [c] s = true <-> In c s.
Proof.
  induction s as [|d s IH]; simpl.
  - split; [discriminate | tauto].
  - rewrite orb_true_iff, IH, andb_true_r, N.eqb_eq. split.
    + intros [-> | H]; auto.
    + intros [-> | H]; auto.
Qed.

(** X5: the term of a course is what follows the last hyphen of its
    course id: the course id ends with a hyphen and the term, the term
    has no hyphen in it, and a course id without hyphen has the empty
    term. *)
Theorem term_after_last_hyphen (courseId : pystr) :
  ~ In 45%N (term_of courseId)
  /\ (In 45%N courseId ->
      exists before, courseId = before ++ str "-" ++ term_of courseId)
  /\ (~ In 45%N courseId -> term_of courseId = []).
Proof.
  unfold term_of. change (str "-") with [45%N].
  destruct (PyStr.contains [45%N] courseId) eqn:E.
  - apply contains_char in E. split; [apply last_split_clean|].
    split; [intros _; apply last_split_suffix; exact E | tauto].
  - split; [simpl; tauto|]. split; [|reflexivity].
    intros H. apply contains_char in H. congruence.
Qed.

Lemma term_after_last_hyphen_witness :
  exists before,
    str "CS-101-2025FA" = before ++ str "-" ++ term_of (str "CS-101-2025FA").
Proof.
  apply (proj1 (proj2 (term_after_last_hyphen (str "CS-101-2025FA")))).
  vm_compute. tauto.
Defined.

(** ** Trimming *)

Module StripFacts.

Lemma lstrip_head (s : pystr) (c : N) (t : pystr) :
  PyStr.lstrip s = c :: t -> PyStr.is_space c = false.
Proof.
  induction s as [|d s IH]; simpl; [discriminate|].
  destruct (PyStr.is_space d) eqn:E; [exact IH|].
  intros H. injection H as <- _. exact E.
Qed.

Lemma lstrip_fixed (c : N) (t : pystr) :
  PyStr.is_space c = false -> PyStr.lstrip (c :: t) = c :: t.
Proof. intros E. simpl. rewrite E. reflexivity. Qed.

Lemma lstrip_idem (s : pystr) : PyStr.lstrip (PyStr.lstrip s) = PyStr.lstrip s.
Proof.
  destruct (PyStr.lstrip s) as [|c t] eqn:E; [reflexivity|].
  apply (@lstrip_fixed c t). exact (@lstrip_head s c t E).
Qed.

Lemma lstrip_snoc (l : pystr) (c : N) :
  PyStr.is_space c = false -> PyStr.lstrip (l ++ [c]) = PyStr.lstrip l ++ [c].
Proof.
  intros E. induction l as [|d l IH]; simpl.
  - rewrite E. reflexivity.
  - destruct (PyStr.is_space d); [exact IH | reflexivity].
Qed.

Lemma rstrip_cons (c : N) (t : pystr) :
  PyStr.is_space c = false -> PyStr.rstrip (c :: t) = c :: PyStr.rstrip t.
Proof.
  intros E. unfold PyStr.rstrip. simpl rev at 2.
  rewrite (@lstrip_snoc (rev t) c E), rev_app_distr. reflexivity.
Qed.

Lemma rstrip_idem (s : pystr) : PyStr.rstrip (PyStr.rstrip s) = PyStr.rstrip s.
Proof. unfold PyStr.rstrip. rewrite rev_involutive, lstrip_idem. reflexivity. Qed.

(** What [strip] returns it leaves as it is. *)
Lemma strip_idem (s : pystr) : trimmed (PyStr.strip s).
Proof.
  unfold trimmed, PyStr.strip.
  destruct (PyStr.lstrip s) as [|c t] eqn:E; [reflexivity|].
  pose proof (@lstrip_head s c t E) as Hc.
  rewrite (@rstrip_cons c t Hc), (@lstrip_fixed c _ Hc), (@rstrip_cons c _ Hc),
    rstrip_idem.
  reflexivity.
Qed.

(** Neither end of a trimmed string is white space. *)
Lemma trimmed_head (c : N) (t : pystr) :
  trimmed (c :: t) -> PyStr.is_space c = false.
Proof.
  unfold trimmed, PyStr.strip. intros H.
  destruct (PyStr.is_space c) eqn:E; [|reflexivity]. exfalso.
  destruct (PyStr.lstrip (c :: t)) as [|d u] eqn:El.
  - discriminate H.
  - pose proof (@lstrip_head _ d u El) as Hd.
    rewrite (@rstrip_cons d u Hd) in H. injection H as E' _. subst d.
    congruence.
Qed.

End StripFacts.

(** ** What validation lets through *)

Lemma stripped_str_valid (v : json) (x : pystr) :
  stripped_str v = Valid x -> exists s, v = JStr s /\ x = PyStr.strip s.
Proof.
  destruct v as [ | b | z | f | s | l | m]; simpl; try discriminate.
  intros E. injection E as <-. eauto.
Qed.

Lemma at_field_valid {A} (name : pystr) (r : vresult A) (a : A) :
  at_field name r = Valid a -> r = Valid a.
Proof. destruct r; simpl; [auto | discriminate]. Qed.

Lemma required_valid {A} (data : Dict.t) (name : pystr)
    (schema : json -> vresult A) (a : A) :
  required data name schema = Valid a ->
  exists v, Dict.lookup data (Dict.KStr name) = Some v /\ schema v = Valid a.
Proof.
  unfold required. destruct (Dict.lookup data (Dict.KStr name)) as [v|];
    [|discriminate].
  intros H. apply at_field_valid in H. eauto.
Qed.

Lemma required_trimmed (data : Dict.t) (name x : pystr) :
  required data name stripped_str = Valid x -> trimmed x.
Proof.
  intros H. apply required_valid in H. destruct H as (v & _ & H).
  apply stripped_str_valid in H. destruct H as (s & _ & ->).
  apply StripFacts.strip_idem.
Qed.

Lemma vap_valid {A B} (rf : vresult (A -> B)) (ra : vresult A) (b : B) :
  vap rf ra = Valid b -> exists f a, rf = Valid f /\ ra = Valid a /\ b = f a.
Proof.
  destruct rf as [f|e], ra as [a|e']; simpl; try discriminate.
  intros H. injection H as <-. eauto.
Qed.

Lemma vmap_valid {A B} (f : A -> B) (ra : vresult A) (b : B) :
  vmap f ra = Valid b -> exists a, ra = Valid a /\ b = f a.
Proof.
  destruct ra as [a|e]; simpl; [|discriminate].
  intros H. injection H as <-. eauto.
Qed.

(** The fields of a course that validated. *)
Lemma course_valid (data : Dict.t) (c : Course.t) :
  Course.validate data = Valid c ->
  required data (str "id") stripped_str = Valid (Course.id c)
  /\ required data (str "courseId") stripped_str = Valid (Course.courseId c)
  /\ required data (str "name") stripped_str = Valid (Course.name c)
  /\ optional data (str "description") None
       (fun v => optional_str_schema (_strip v)) = Valid (Course.description c)
  /\ required data (str "availability")
       (model_schema AvailabilityBool.validate)
     = Valid (Course.availability c).
Proof.
  unfold Course.validate. intros H.
  apply vap_valid in H. destruct H as (f4 & a & H & Ha & ->).
  apply vap_valid in H. destruct H as (f3 & d & H & Hd & ->).
  apply vap_valid in H. destruct H as (f2 & n & H & Hn & ->).
  apply vap_valid in H. destruct H as (f1 & ci & H & Hci & ->).
  apply vmap_valid in H. destruct H as (i & Hi & ->).
  simpl. auto.
Qed.

Lemma user_valid (data : Dict.t) (u : User.t) :
  User.validate data = Valid u ->
  required data (str "id") stripped_str = Valid (User.id u)
  /\ required data (str "userName") stripped_str = Valid (User.userName u)
  /\ required data (str "name") (model_schema UserName.validate)
     = Valid (User.name u)
  /\ required data (str "contact") (model_schema Contact.validate)
     = Valid (User.contact u)
  /\ required data (str "availability")
       (model_schema AvailabilityBool.validate)
     = Valid (User.availability u).
Proof.
  unfold User.validate. intros H.
  apply vap_valid in H. destruct H as (f4 & a & H & Ha & ->).
  apply vap_valid in H. destruct H as (f3 & c & H & Hc & ->).
  apply vap_valid in H. destruct H as (f2 & n & H & Hn & ->).
  apply vap_valid in H. destruct H as (f1 & un & H & Hun & ->).
  apply vmap_valid in H. destruct H as (i & Hi & ->).
  simpl. auto.
Qed.

Lemma enrollment_valid (data : Dict.t) (w : log) (e : Enrollment.t) :
  Enrollment.validate data = (w, Valid e) ->
  required data (str "id") stripped_str = Valid (Enrollment.id e)
  /\ required data (str "userId") stripped_str = Valid (Enrollment.userId e)
  /\ required data (str "courseId") stripped_str
     = Valid (Enrollment.courseId e)
  /\ Enrollment.role_field data = (w, Valid (Enrollment.role e))
  /\ required data (str "availability")
       (model_schema AvailabilityBool.validate)
     = Valid (Enrollment.availability e).
Proof.
  unfold Enrollment.validate.
  destruct (Enrollment.role_field data) as [w' r]. intros H.
  injection H as -> H.
  apply vap_valid in H. destruct H as (f4 & a & H & Ha & ->).
  apply vap_valid in H. destruct H as (f3 & ro & H & Hro & ->).
  apply vap_valid in H. destruct H as (f2 & ci & H & Hci & ->).
  apply vap_valid in H. destruct H as (f1 & ui & H & Hui & ->).
  apply vmap_valid in H. destruct H as (i & Hi & ->).
  simpl. rewrite Hro. auto.
Qed.

Lemma course_new_ok (item : Dict.t) (c : Course.t) :
  Course.new item = Ok c -> Course.validate item = Valid c.
Proof.
  unfold Course.new. destruct (Dict.keywords_ok item); [|discriminate].
  destruct (Course.validate item); [|discriminate]. congruence.
Qed.

Lemma user_new_ok (item : Dict.t) (u : User.t) :
  User.new item = Ok u -> User.validate item = Valid u.
Proof.
  unfold User.new. destruct (Dict.keywords_ok item); [|discriminate].
  destruct (User.validate item); [|discriminate]. congruence.
Qed.

Lemma enrollment_new_ok (item : Dict.t) (w : log) (e : Enrollment.t) :
  Enrollment.new item = (w, Ok e) -> Enrollment.validate item = (w, Valid e).
Proof.
  unfold Enrollment.new. destruct (Dict.keywords_ok item); [|discriminate].
  destruct (Enrollment.validate item) as [w' [e'|errs]]; [|discriminate].
  congruence.
Qed.

(** ** What the loaders return *)

Section MapResultShape.

Context {A B : Type} (f : A -> result B).

Lemma map_result_Forall2 (l : list A) (bs : list B) :
  map_result f l = Ok bs <-> Forall2 (fun a b => f a = Ok b) l bs.
Proof.
  revert bs. induction l as [|a l IH]; intros bs; simpl.
  - split.
    + intros E. injection E as <-. constructor.
    + intros H. inversion H. reflexivity.
  - split.
    + destruct (f a) as [b|x] eqn:Ea; simpl; [|discriminate].
      destruct (map_result f l) as [bs'|x] eqn:El; simpl; [|discriminate].
      intros E. injection E as <-. constructor; [exact Ea|].
      apply IH. reflexivity.
    + intros H. inversion H as [|a' b l' bs' Ha Hl]. subst.
      rewrite Ha. simpl. apply IH in Hl. rewrite Hl. reflexivity.
Qed.

End MapResultShape.

(** Two passes, each of which can raise, succeed when every element goes
    through both. *)
Lemma two_passes {A B C} (f : A -> result B) (g : B -> result C)
    (l : list A) (cs : list C) :
  bind (map_result f l) (map_result g) = Ok cs
  <-> Forall2 (fun a c => exists b, f a = Ok b /\ g b = Ok c) l cs.
Proof.
  split.
  - intros H. apply bind_ok in H. destruct H as (bs & Hf & Hg).
    apply map_result_Forall2 in Hf. apply map_result_Forall2 in Hg.
    revert cs Hg. induction Hf as [|a b l bs Hab Hf IH]; intros cs Hg.
    + inversion Hg. constructor.
    + inversion Hg as [|b' c bs' cs' Hbc Hg']. subst.
      constructor; [eauto | apply IH; assumption].
  - intros H. induction H as [|a c l cs (b & Ha & Hb) H IH]; [reflexivity|].
    apply bind_ok in IH. destruct IH as (bs & Hf & Hg).
    simpl. rewrite Ha. simpl. rewrite Hf. simpl. rewrite Hb. simpl.
    rewrite Hg. reflexivity.
Qed.

Lemma two_passes_one {A B C} (f : A -> result B) (g : B -> result C)
    (a : A) (c : C) :
  bind (map_result f [a]) (map_result g) = Ok [c]
  <-> exists b, f a = Ok b /\ g b = Ok c.
Proof.
  rewrite two_passes. split.
  - intros H. inversion H. assumption.
  - intros H. constructor; [exact H | constructor].
Qed.

Lemma load_courses_array (raw : list json) :
  load_courses (array_file raw)
  = bind (map_result normalize raw) (map_result Course.new).
Proof. reflexivity. Qed.

Lemma load_users_array (raw : list json) :
  load_users (array_file raw)
  = bind (map_result normalize raw) (map_result User.new).
Proof. reflexivity. Qed.

(** A load that returned read an array and built each entity from a
    normalized element. *)
Lemma load_courses_ok (files : directory) (cs : list Course.t) :
  load_courses files = Ok cs ->
  exists raw,
    files (str "courses.json") = Parsed (JArr raw)
    /\ length cs = length raw
    /\ Forall (fun c => exists item, Course.new item = Ok c) cs.
Proof.
  unfold load_courses, _read_json_array.
  destruct (files (str "courses.json")) as [ | | [ | | | | | raw | ]];
    try discriminate.
  cbn [bind]. intros H. exists raw. split; [reflexivity|].
  apply two_passes in H. split.
  - symmetry. exact (Forall2_length H).
  - clear - H. induction H as [|a c l cs (b & _ & Hb) H IH]; constructor; eauto.
Qed.

Lemma load_users_ok (files : directory) (us : list User.t) :
  load_users files = Ok us ->
  exists raw,
    files (str "users.json") = Parsed (JArr raw)
    /\ length us = length raw
    /\ Forall (fun u => exists item, User.new item = Ok u) us.
Proof.
  unfold load_users, _read_json_array.
  destruct (files (str "users.json")) as [ | | [ | | | | | raw | ]];
    try discriminate.
  cbn [bind]. intros H. exists raw. split; [reflexivity|].
  apply two_passes in H. split.
  - symmetry. exact (Forall2_length H).
  - clear - H. induction H as [|a c l cs (b & _ & Hb) H IH]; constructor; eauto.
Qed.

(** The enrollments that were built, with the warnings of each. *)
Lemma new_enrollments_ok (normalized : list Dict.t) (lg : log)
    (es : list Enrollment.t) :
  new_enrollments normalized = (lg, Ok es) ->
  exists ws,
    Forall2 (fun item we => Enrollment.new item = (fst we, Ok (snd we)))
      normalized (combine ws es)
    /\ length ws = length es
    /\ lg = concat ws.
Proof.
  revert lg es. induction normalized as [|item rest IH]; intros lg es; simpl.
  - intros E. injection E as <- <-. exists []. repeat split. constructor.
  - destruct (Enrollment.new item) as [w [e|x]] eqn:En; [|discriminate].
    destruct (new_enrollments rest) as [w' [es'|x]] eqn:Er; simpl;
      [|discriminate].
    intros E. injection E as <- <-.
    destruct (IH w' es' eq_refl) as (ws & Hall & Hlen & ->).
    exists (w :: ws). simpl. repeat split; [|congruence].
    constructor; assumption.
Qed.

Lemma load_enrollments_ok (files : directory) (lg : log)
    (es : list Enrollment.t) :
  load_enrollments files = (lg, Ok es) ->
  exists raw normalized,
    files (str "enrollments.json") = Parsed (JArr raw)
    /\ map_result normalize raw = Ok normalized
    /\ new_enrollments normalized = (lg, Ok es).
Proof.
  unfold load_enrollments, _read_json_array.
  destruct (files (str "enrollments.json")) as [ | | [ | | | | | raw | ]];
    try discriminate.
  cbn [bind]. destruct (map_result normalize raw) as [normalized|x] eqn:En;
    [|discriminate].
  intros H. exists raw, normalized. repeat split; assumption.
Qed.

(** The role of an enrollment that was built, and its warnings. *)
Lemma role_field_valid (data : Dict.t) (w : log) (r : pystr) :
  Enrollment.role_field data = (w, Valid r) ->
  trimmed r
  /\ w = (if PyStr.mem r ALLOWED_ROLES then []
          else [str "Unknown role: " ++ r]).
Proof.
  unfold Enrollment.role_field, Enrollment._warn_unknown_role.
  destruct (required data (str "role") stripped_str) as [x|errs] eqn:E;
    [|discriminate].
  intros H. injection H as <- <-.
  split; [exact (@required_trimmed _ _ _ E) | reflexivity].
Qed.

Lemma model_schema_valid {A} (fields : Dict.t -> vresult A) (v : json)
    (a : A) :
  model_schema fields v = Valid a ->
  exists m, v = JObj m /\ fields (Dict.of_members m) = Valid a.
Proof.
  destruct v as [ | b | z | f | s | l | m]; simpl; try discriminate. eauto.
Qed.

Lemma user_name_valid (v : json) (n : UserName.t) :
  model_schema UserName.validate v = Valid n ->
  trimmed (UserName.given n) /\ trimmed (UserName.family n).
Proof.
  intros H. apply model_schema_valid in H. destruct H as (m & _ & H).
  unfold UserName.validate in H.
  apply vap_valid in H. destruct H as (f1 & fam & H & Hfam & ->).
  apply vmap_valid in H. destruct H as (giv & Hgiv & ->). simpl.
  split; [exact (@required_trimmed _ _ _ Hgiv)
         | exact (@required_trimmed _ _ _ Hfam)].
Qed.

Lemma contact_valid (v : json) (c : Contact.t) :
  model_schema Contact.validate v = Valid c ->
  trimmed (Contact.email c) /\ In 64%N (Contact.email c).
Proof.
  intros H. apply model_schema_valid in H. destruct H as (m & _ & H).
  unfold Contact.validate in H.
  apply vmap_valid in H. destruct H as (x & H & ->). simpl.
  apply required_valid in H. destruct H as (v' & _ & H).
  unfold Contact._strip_and_validate_email in H.
  destruct v' as [ | b | z | f | s | l | m']; simpl in H; try discriminate.
  destruct (PyStr.contains (str "@") (PyStr.strip s)) eqn:E; simpl in H;
    [|discriminate].
  injection H as <-. split; [apply StripFacts.strip_idem|].
  apply contains_char. exact E.
Qed.

(** X6: every string field of a loaded entity is trimmed: the id, course
    id, name and description of a course, the id, user name, given name,
    family name and email of a user, and the id, user id, course id and
    role of an enrollment have no white space at either end. *)
Theorem loaded_fields_trimmed (files : directory) :
  (forall cs, load_courses files = Ok cs ->
     Forall (fun c => trimmed (Course.id c) /\ trimmed (Course.courseId c)
                      /\ trimmed (Course.name c)
                      /\ forall d, Course.description c = Some d -> trimmed d)
            cs)
  /\ (forall us, load_users files = Ok us ->
        Forall (fun u => trimmed (User.id u) /\ trimmed (User.userName u)
                         /\ trimmed (UserName.given (User.name u))
                         /\ trimmed (UserName.family (User.name u))
                         /\ trimmed (Contact.email (User.contact u)))
               us)
  /\ (forall lg es, load_enrollments files = (lg, Ok es) ->
        Forall (fun e => trimmed (Enrollment.id e)
                         /\ trimmed (Enrollment.userId e)
                         /\ trimmed (Enrollment.courseId e)
                         /\ trimmed (Enrollment.role e))
               es).
Proof.
  split; [|split].
  - intros cs H. apply load_courses_ok in H. destruct H as (raw & _ & _ & H).
    eapply Forall_impl; [|exact H]. intros c (item & Hc).
    apply course_new_ok, course_valid in Hc.
    destruct Hc as (Hi & Hci & Hn & Hd & _).
    repeat split; try (eapply required_trimmed; eassumption).
    intros d Ed. rewrite Ed in Hd. unfold optional in Hd.
    destruct (Dict.lookup item (Dict.KStr (str "description"))) as [v|];
      [|discriminate].
    apply at_field_valid in Hd.
    destruct v as [ | b | z | f | s | l | m]; simpl in Hd; try discriminate.
    injection Hd as <-. apply StripFacts.strip_idem.
  - intros us H. apply load_users_ok in H. destruct H as (raw & _ & _ & H).
    eapply Forall_impl; [|exact H]. intros u (item & Hu).
    apply user_new_ok, user_valid in Hu.
    destruct Hu as (Hi & Hun & Hn & Hc & _).
    apply required_valid in Hn. destruct Hn as (vn & _ & Hn).
    apply user_name_valid in Hn.
    apply required_valid in Hc. destruct Hc as (vc & _ & Hc).
    apply contact_valid in Hc.
    repeat split; try (eapply required_trimmed; eassumption); tauto.
  - intros lg es H. apply load_enrollments_ok in H.
    destruct H as (raw & normalized & _ & _ & H).
    apply new_enrollments_ok in H. destruct H as (ws & Hall & Hlen & _).
    revert ws Hall Hlen. generalize normalized. clear.
    induction es as [|e es IH]; intros items ws Hall Hlen; [constructor|].
    destruct ws as [|w ws]; [discriminate|]. simpl in Hall.
    inversion Hall as [|item we items' wes Hnew Hall']. subst.
    constructor; [|eapply IH; [exact Hall' | simpl in Hlen; congruence]].
    simpl in Hnew. apply enrollment_new_ok, enrollment_valid in Hnew.
    destruct Hnew as (Hi & Hui & Hci & Hr & _).
    apply role_field_valid in Hr.
    repeat split; try (eapply required_trimmed; eassumption); tauto.
Qed.

Lemma loaded_fields_trimmed_witness :
  Forall (fun c => trimmed (Course.id c) /\ trimmed (Course.courseId c)
                   /\ trimmed (Course.name c)
                   /\ forall d, Course.description c = Some d -> trimmed d)
         [Sample.course1; Sample.course1_again].
Proof.
  apply (proj1 (loaded_fields_trimmed Sample.duplicate_ids)).
  vm_compute. reflexivity.
Defined.

(** X7: every loaded user has an email with an at sign in it. *)
Theorem loaded_emails_have_at (files : directory) (us : list User.t) :
  load_users files = Ok us ->
  Forall (fun u => In 64%N (Contact.email (User.contact u))) us.
Proof.
  intros H. apply load_users_ok in H. destruct H as (raw & _ & _ & H).
  eapply Forall_impl; [|exact H]. intros u (item & Hu).
  apply user_new_ok, user_valid in Hu. destruct Hu as (_ & _ & _ & Hc & _).
  apply required_valid in Hc. destruct Hc as (vc & _ & Hc).
  apply contact_valid in Hc. tauto.
Qed.

Lemma loaded_emails_have_at_witness :
  Forall (fun u => In 64%N (Contact.email (User.contact u)))
         [Sample.user1; Sample.user1_again].
Proof.
  apply (@loaded_emails_have_at Sample.duplicate_ids).
  vm_compute. reflexivity.
Defined.

(** X8: a load succeeds exactly when each element of the array loads on
    its own, and then returns the entities of the elements in the order of
    the file; one element that fails makes the whole load fail. *)
Theorem load_iff_each_element_loads (raw : list json) :
  (forall cs,
     load_courses (array_file raw) = Ok cs
     <-> Forall2 (fun item c => load_courses (array_file [item]) = Ok [c])
           raw cs)
  /\ (forall us,
        load_users (array_file raw) = Ok us
        <-> Forall2 (fun item u => load_users (array_file [item]) = Ok [u])
              raw us).
Proof.
  split.
  - intros cs. rewrite load_courses_array, two_passes. split.
    + intros H. eapply Forall2_impl; [|exact H]. intros item c Hic. cbv beta in *.
      rewrite load_courses_array. apply two_passes_one. exact Hic.
    + intros H. eapply Forall2_impl; [|exact H]. intros item c Hic. cbv beta in *.
      rewrite load_courses_array in Hic. apply two_passes_one in Hic.
      exact Hic.
  - intros us. rewrite load_users_array, two_passes. split.
    + intros H. eapply Forall2_impl; [|exact H]. intros item u Hiu. cbv beta in *.
      rewrite load_users_array. apply two_passes_one. exact Hiu.
    + intros H. eapply Forall2_impl; [|exact H]. intros item u Hiu. cbv beta in *.
      rewrite load_users_array in Hiu. apply two_passes_one in Hiu.
      exact Hiu.
Qed.

Lemma load_iff_each_element_loads_witness :
  load_users (array_file [Sample.raw_user1; Sample.raw_user1_again])
  = Ok [Sample.user1; Sample.user1_again].
Proof.
  apply (proj2 (load_iff_each_element_loads
                  [Sample.raw_user1; Sample.raw_user1_again])).
  repeat constructor.
Defined.

Lemma enrollment_warnings (item : Dict.t) (w : log) (e : Enrollment.t) :
  Enrollment.new item = (w, Ok e) -> w = warnings_of e.
Proof.
  intros H. apply enrollment_new_ok, enrollment_valid in H.
  destruct H as (_ & _ & _ & Hr & _). apply role_field_valid in Hr.
  unfold warnings_of. tauto.
Qed.

(** X9: a load of enrollments that succeeds has logged one warning for
    each enrollment whose role is not a recognized one, in the order of
    the file, naming the role, and nothing else: no warning at all when
    every role is recognized. *)
Theorem load_enrollments_warnings (files : directory) (lg : log)
    (es : list Enrollment.t) :
  load_enrollments files = (lg, Ok es) ->
  lg = flat_map warnings_of es
  /\ (Forall (fun e => In (Enrollment.role e) ALLOWED_ROLES) es -> lg = []).
Proof.
  intros H. apply load_enrollments_ok in H.
  destruct H as (raw & normalized & _ & _ & H).
  apply new_enrollments_ok in H. destruct H as (ws & Hall & Hlen & ->).
  assert (E : concat ws = flat_map warnings_of es).
  { revert ws Hall Hlen. generalize normalized. clear.
    induction es as [|e es IH]; intros items ws Hall Hlen.
    - destruct ws; [reflexivity | discriminate].
    - destruct ws as [|w ws]; [discriminate|]. simpl in Hall.
      inversion Hall as [|item we items' wes Hnew Hall']. subst.
      simpl in Hnew. apply enrollment_warnings in Hnew. simpl.
      rewrite Hnew. f_equal. eapply IH; [exact Hall'|].
      simpl in Hlen. congruence. }
  split; [exact E|]. rewrite E. clear.
  induction 1 as [|e es He _ IH]; [reflexivity|]. simpl. rewrite IH.
  unfold warnings_of. apply PyStrFacts.mem_In in He. rewrite He. reflexivity.
Qed.

Lemma load_enrollments_warnings_witness :
  [str "Unknown role: SuperRole"]
  = flat_map warnings_of
      [{| Enrollment.id := str "_x_1"; Enrollment.userId := str "_u_1";
          Enrollment.courseId := str "_c_1"; Enrollment.role := str "SuperRole";
          Enrollment.availability := unavailable |}].
Proof.
  apply (@load_enrollments_warnings (array_file [Sample.raw_enrollment_super])).
  vm_compute. reflexivity.
Defined.

(** ** Availability in the files *)

(** X10: a record that was normalized always validates its availability,
    whatever the file had there, and the entity built from it is
    available exactly when the raw value under availability.available
    reads as true: the boolean true, or a string that is yes, true, y or 1
    once trimmed and lowered. *)
Theorem normalized_availability (item : json) (normalized : Dict.t) :
  normalize item = Ok normalized ->
  exists item_copy raw,
    Dict.dict item = Ok item_copy
    /\ raw_available item_copy = Ok raw
    /\ required normalized (str "availability")
         (model_schema AvailabilityBool.validate)
       = Valid {| AvailabilityBool.available := _coerce_available_to_bool raw |}
    /\ (forall c, Course.new normalized = Ok c ->
          (AvailabilityBool.available (Course.availability c) = true
           <-> reads_as_true raw))
    /\ (forall u, User.new normalized = Ok u ->
          (AvailabilityBool.available (User.availability u) = true
           <-> reads_as_true raw))
    /\ (forall w e, Enrollment.new normalized = (w, Ok e) ->
          (AvailabilityBool.available (Enrollment.availability e) = true
           <-> reads_as_true raw)).
Proof.
  unfold normalize. intros H.
  apply bind_ok in H. destruct H as (item_copy & Hd & H).
  apply bind_ok in H. destruct H as (raw & Hr & H). injection H as <-.
  exists item_copy, raw.
  assert (Hfield :
    required
      (Dict.set item_copy (Dict.KStr (str "availability"))
         (JObj [(str "available", JBool (_coerce_available_to_bool raw))]))
      (str "availability") (model_schema AvailabilityBool.validate)
    = Valid {| AvailabilityBool.available := _coerce_available_to_bool raw |}).
  { rewrite DictFacts.required_set_same. reflexivity. }
  split; [exact Hd|]. split; [exact Hr|]. split; [exact Hfield|].
  split; [|split].
  - intros c Hc. apply course_new_ok, course_valid in Hc.
    destruct Hc as (_ & _ & _ & _ & Ha). rewrite Hfield in Ha.
    injection Ha as <-. simpl. apply coerce_true_iff.
  - intros u Hu. apply user_new_ok, user_valid in Hu.
    destruct Hu as (_ & _ & _ & _ & Ha). rewrite Hfield in Ha.
    injection Ha as <-. simpl. apply coerce_true_iff.
  - intros w e He. apply enrollment_new_ok, enrollment_valid in He.
    destruct He as (_ & _ & _ & _ & Ha). rewrite Hfield in Ha.
    injection Ha as <-. simpl. apply coerce_true_iff.
Qed.

Lemma normalized_availability_witness :
  exists item_copy raw,
    Dict.dict Sample.raw_course1 = Ok item_copy
    /\ raw_available item_copy = Ok raw
    /\ (AvailabilityBool.available (Course.availability Sample.course1) = true
        <-> reads_as_true raw).
Proof.
  destruct (@normalized_availability Sample.raw_course1
              (Dict.set
                 (Dict.of_members
                    [(str "id", JStr (str "_c1_1"));
                     (str "courseId", JStr (str "CS101-2025FA"));
                     (str "name", JStr (str "Intro to CS"));
                     (str "availability",
                      JObj [(str "available", JStr (str "Yes"))])])
                 (Dict.KStr (str "availability"))
                 (JObj [(str "available", JBool true)])))
    as (item_copy & raw & Hd & Hr & _ & Hc & _); [vm_compute; reflexivity|].
  exists item_copy, raw. split; [exact Hd|]. split; [exact Hr|].
  apply Hc. vm_compute. reflexivity.
Defined.

(** X11: an availability that is not an object is not read as one: when
    it is true in Python (a non-empty string such as "Yes", the boolean
    true, a number other than zero, a non-empty array) normalization
    raises AttributeError; when it is false (the boolean false, zero, the
    empty string, the empty array) the record is normalized as
    unavailable. *)
Theorem availability_not_an_object (m : list (pystr * json)) (v : json) :
  Dict.lookup (Dict.of_members m) (Dict.KStr (str "availability")) = Some v ->
  (forall a, v <> JObj a) ->
  (truthy v = true -> normalize (JObj m) = Raise AttributeError)
  /\ (truthy v = false ->
      normalize (JObj m)
      = Ok (Dict.set (Dict.of_members m) (Dict.KStr (str "availability"))
              not_available)).
Proof.
  intros Hv Hobj. unfold normalize, raw_available, Dict.get.
  cbn [Dict.dict bind]. rewrite Hv.
  split; intros Ht; rewrite Ht.
  - destruct v as [ | b | z | f | s | l | a]; try reflexivity.
    exfalso. exact (Hobj a eq_refl).
  - reflexivity.
Qed.

Lemma availability_not_an_object_witness :
  normalize (JObj [(str "id", JStr (str "_c1_1"));
                   (str "availability", JStr (str "Yes"))])
  = Raise AttributeError.
Proof.
  apply (@availability_not_an_object
           [(str "id", JStr (str "_c1_1"));
            (str "availability", JStr (str "Yes"))] (JStr (str "Yes")));
    [reflexivity | discriminate | reflexivity].
Defined.

(** ** Errors of validation *)

Lemma vap_fails_l {A B} (rf : vresult (A -> B)) (ra : vresult A)
    (err : verror) :
  fails_with rf err -> fails_with (vap rf ra) err.
Proof.
  intros (errs & -> & Hin). destruct ra as [a|errs']; simpl.
  - exists errs. auto.
  - exists (errs ++ errs'). split; [reflexivity|].
    apply in_or_app. left. exact Hin.
Qed.

Lemma vap_fails_r {A B} (rf : vresult (A -> B)) (ra : vresult A)
    (err : verror) :
  fails_with ra err -> fails_with (vap rf ra) err.
Proof.
  intros (errs & -> & Hin). destruct rf as [f|errs']; simpl.
  - exists errs. auto.
  - exists (errs' ++ errs). split; [reflexivity|].
    apply in_or_app. right. exact Hin.
Qed.

Lemma vmap_fails {A B} (f : A -> B) (ra : vresult A) (err : verror) :
  fails_with ra err -> fails_with (vmap f ra) err.
Proof. intros (errs & -> & Hin). exists errs. auto. Qed.

Lemma required_missing {A} (data : Dict.t) (name : pystr)
    (schema : json -> vresult A) :
  Dict.lookup data (Dict.KStr name) = None ->
  fails_with (required data name schema) ([name], missing).
Proof.
  intros H. unfold required. rewrite H.
  exists [([name], missing)]. split; [reflexivity | left; reflexivity].
Qed.

Lemma required_fails {A} (data : Dict.t) (name : pystr)
    (schema : json -> vresult A) (v : json) (loc : list pystr)
    (kind : verror_kind) :
  Dict.lookup data (Dict.KStr name) = Some v ->
  fails_with (schema v) (loc, kind) ->
  fails_with (required data name schema) (name :: loc, kind).
Proof.
  intros H (errs & E & Hin). unfold required. rewrite H, E. simpl.
  eexists. split; [reflexivity|].
  apply (in_map (fun err => (name :: fst err, snd err)) _ _ Hin).
Qed.

Ltac field_fails :=
  first [ apply vmap_fails; assumption
        | apply vap_fails_r; assumption
        | apply vap_fails_l; field_fails ].

(** X12: a required field that is absent fails the record: the
    constructor raises a ValidationError that reports the field as
    missing, for the id, course id and name of a course, the id, user
    name, name and contact of a user, and the id, user id, course id and
    role of an enrollment. *)
Theorem missing_field_is_reported (item : Dict.t) (field : pystr) :
  Dict.keywords_ok item = true ->
  Dict.lookup item (Dict.KStr field) = None ->
  (In field [str "id"; str "courseId"; str "name"] ->
   exists errs, Course.new item = Raise (ValidationError (str "Course") errs)
                /\ In ([field], missing) errs)
  /\ (In field [str "id"; str "userName"; str "name"; str "contact"] ->
      exists errs, User.new item = Raise (ValidationError (str "User") errs)
                   /\ In ([field], missing) errs)
  /\ (In field [str "id"; str "userId"; str "courseId"; str "role"] ->
      exists errs,
        snd (Enrollment.new item)
        = Raise (ValidationError (str "Enrollment") errs)
        /\ In ([field], missing) errs).
Proof.
  intros Hk Hnone.
  pose proof (fun A schema => @required_missing A item field schema Hnone)
    as Hmiss.
  split; [|split].
  - intros Hin. unfold Course.new. rewrite Hk.
    assert (F : fails_with (Course.validate item) ([field], missing)).
    { unfold Course.validate.
      destruct Hin as [<- | [<- | [<- | []]]];
        pose proof (Hmiss _ stripped_str) as H; field_fails. }
    destruct F as (errs & -> & Hin'). eauto.
  - intros Hin. unfold User.new. rewrite Hk.
    assert (F : fails_with (User.validate item) ([field], missing)).
    { unfold User.validate.
      destruct Hin as [<- | [<- | [<- | [<- | []]]]];
        [ pose proof (Hmiss _ stripped_str) as H
        | pose proof (Hmiss _ stripped_str) as H
        | pose proof (Hmiss _ (model_schema UserName.validate)) as H
        | pose proof (Hmiss _ (model_schema Contact.validate)) as H ];
        field_fails. }
    destruct F as (errs & -> & Hin'). eauto.
  - intros Hin. unfold Enrollment.new. rewrite Hk.
    assert (F : fails_with (snd (Enrollment.validate item))
                  ([field], missing)).
    { unfold Enrollment.validate.
      destruct (Enrollment.role_field item) as [w r] eqn:Er. simpl.
      destruct Hin as [<- | [<- | [<- | [<- | []]]]];
        try (pose proof (Hmiss _ stripped_str) as H; field_fails).
      assert (H : fails_with r ([str "role"], missing)).
      { unfold Enrollment.role_field in Er.
        destruct (Hmiss _ stripped_str) as (errs & E & Hin).
        rewrite E in Er. injection Er as _ <-. exists errs. auto. }
      field_fails. }
    destruct (Enrollment.validate item) as [w r]. simpl in F.
    destruct F as (errs & -> & Hin'). simpl. eauto.
Qed.

Lemma missing_field_is_reported_witness :
  exists errs,
    Course.new (Dict.of_members [(str "id", JStr (str "_c1_1"));
                                 (str "name", JStr (str "Intro to CS"))])
    = Raise (ValidationError (str "Course") errs)
    /\ In ([str "courseId"], missing) errs.
Proof.
  apply (@missing_field_is_reported
           (Dict.of_members [(str "id", JStr (str "_c1_1"));
                             (str "name", JStr (str "Intro to CS"))])
           (str "courseId")); [reflexivity | reflexivity |].
  right. left. reflexivity.
Defined.

(** X13: a user whose email is not a string with an at sign in it, once
    trimmed, fails: the constructor raises a ValidationError that reports
    a value error at contact.email. *)
Theorem email_without_at_fails (item : Dict.t) (contact : list (pystr * json))
    (v : json) :
  Dict.keywords_ok item = true ->
  Dict.lookup item (Dict.KStr (str "contact")) = Some (JObj contact) ->
  Dict.lookup (Dict.of_members contact) (Dict.KStr (str "email")) = Some v ->
  (forall s, v = JStr s -> ~ In 64%N (PyStr.strip s)) ->
  exists errs,
    User.new item = Raise (ValidationError (str "User") errs)
    /\ In ([str "contact"; str "email"], value_error) errs.
Proof.
  intros Hk Hc He Hno. unfold User.new. rewrite Hk.
  assert (F : fails_with (User.validate item)
                ([str "contact"; str "email"], value_error)).
  { unfold User.validate.
    assert (H : fails_with
                  (required item (str "contact")
                     (model_schema Contact.validate))
                  ([str "contact"; str "email"], value_error)).
    { eapply required_fails; [exact Hc|]. cbn [model_schema].
      unfold Contact.validate. apply vmap_fails.
      eapply required_fails; [exact He|].
      unfold Contact._strip_and_validate_email.
      exists [([], value_error)]. split; [|left; reflexivity].
      destruct v as [ | b | z | f | s | l | m]; try reflexivity. simpl.
      destruct (PyStr.contains (str "@") (PyStr.strip s)) eqn:E;
        [|reflexivity].
      exfalso. apply (Hno s eq_refl). apply contains_char. exact E. }
    field_fails. }
  destruct F as (errs & -> & Hin). eauto.
Qed.

Lemma email_without_at_fails_witness :
  exists errs,
    User.new
      (Dict.of_members
         [(str "id", JStr (str "_2001_1")); (str "userName", JStr (str "jdoe"));
          (str "name", JObj [(str "given", JStr (str "Jane"));
                             (str "family", JStr (str "Doe"))]);
          (str "contact", JObj [(str "email", JStr (str "invalid-email"))]);
          (str "availability", JObj [(str "available", JBool true)])])
    = Raise (ValidationError (str "User") errs)
    /\ In ([str "contact"; str "email"], value_error) errs.
Proof.
  apply (@email_without_at_fails _
           [(str "email", JStr (str "invalid-email"))]
           (JStr (str "invalid-email")));
    [reflexivity | reflexivity | reflexivity |].
  intros s E. injection E as <-. vm_compute. intuition discriminate.
Defined.

(** ** What a run writes *)

Lemma map_column_known (frame : table) (col : pystr) (f : cell -> cell) :
  PyStr.mem col (columns frame) = true ->
  map_column frame col f
  = {| columns := columns frame;
       records := map (map_cell (columns frame) col f) (records frame) |}.
Proof. intros H. unfold map_column. rewrite H. reflexivity. Qed.

Lemma csv_of_lines (df : list Row.t) :
  csv_of df = {| columns := csv_columns; records := map csv_line df |}.
Proof.
  unfold csv_of. destruct df as [|r df]; [reflexivity|].
  unfold _prepare_csv. cbn [fold_left].
  rewrite !map_column_known by reflexivity.
  cbn [columns records]. rewrite !map_map. reflexivity.
Qed.













(** ** The commands *)



(** X17: an input file that is missing, is not JSON or is not an array
    ends the command in its handler, with the exception of that file and
    the world as it was: for courses.json at once, for users.json when
    the courses load, for enrollments.json when the courses and the users
    load. *)
Theorem unreadable_input_is_reported (env : environment) (files : directory)
    (data_dir out_dir : pystr) (course_filter : option pystr)
    (include_instructors include_students only_available : bool)
    (w : world) (name : pystr) :
  not_an_array (files name) ->
  (name = str "courses.json"
   \/ (name = str "users.json" /\ exists cs, load_courses files = Ok cs)
   \/ (name = str "enrollments.json"
       /\ (exists cs, load_courses files = Ok cs)
       /\ exists us, load_users files = Ok us)) ->
  generate env files data_dir out_dir course_filter include_instructors
    include_students only_available w
  = (w, Exit1 (match files name with
               | Absent => FileNotFoundError name
               | Unparsable => JSONDecodeError name
               | Parsed _ => ValueError_expected_array name
               end)).
Proof.
  intros Hbad Hwhich.
  unfold generate, generate_report, io_bind, lift, logging.
  destruct Hwhich as [-> | [(-> & cs & Hc) | (-> & (cs & Hc) & us & Hu)]].
  - unfold load_courses, _read_json_array.
    destruct (files (str "courses.json")) as [ | | [ | | | | | | ]];
      try contradiction; reflexivity.
  - rewrite Hc. unfold load_users, _read_json_array.
    destruct (files (str "users.json")) as [ | | [ | | | | | | ]];
      try contradiction; reflexivity.
  - rewrite Hc, Hu. unfold load_enrollments, _read_json_array.
    destruct (files (str "enrollments.json")) as [ | | [ | | | | | | ]];
      try contradiction; cbn; rewrite app_nil_r; destruct w; reflexivity.
Qed.

Lemma unreadable_input_is_reported_witness :
  generate Sample.with_template Sample.no_users_file (str "data") (str "out")
    None true true false Sample.fresh
  = (Sample.fresh, Exit1 (FileNotFoundError (str "users.json"))).
Proof.
  apply (@unreadable_input_is_reported Sample.with_template
           Sample.no_users_file (str "data") (str "out") None true true false
           Sample.fresh (str "users.json")).
  - exact I.
  - right. left. split; [reflexivity|]. exists []. reflexivity.
Defined.

(** ** The full name *)

Module FullNameFacts.

Lemma rstrip_snoc (s : pystr) (c : N) :
  PyStr.is_space c = false -> PyStr.rstrip (s ++ [c]) = s ++ [c].
Proof.
  intros E. unfold PyStr.rstrip. rewrite rev_app_distr. simpl.
  rewrite E. simpl. rewrite rev_involutive. reflexivity.
Qed.

Lemma rstrip_snoc_space (s : pystr) (c : N) :
  PyStr.is_space c = true -> PyStr.rstrip (s ++ [c]) = PyStr.rstrip s.
Proof.
  intros E. unfold PyStr.rstrip. rewrite rev_app_distr. simpl.
  rewrite E. reflexivity.
Qed.

Lemma rstrip_last (s t : pystr) (c : N) :
  PyStr.rstrip s = t ++ [c] -> PyStr.is_space c = false.
Proof.
  unfold PyStr.rstrip. intros H.
  apply (f_equal (@rev N)) in H. rewrite rev_involutive, rev_app_distr in H.
  simpl in H. exact (@StripFacts.lstrip_head _ _ _ H).
Qed.

(** The last code point of a trimmed string is no white space. *)
Lemma trimmed_last (t : pystr) (c : N) :
  trimmed (t ++ [c]) -> PyStr.is_space c = false.
Proof.
  unfold trimmed, PyStr.strip. intros H. exact (@rstrip_last _ _ _ H).
Qed.

(** A string that neither begins nor ends with white space is trimmed. *)
Lemma trimmed_ends (c d : N) (s : pystr) :
  PyStr.is_space c = false -> PyStr.is_space d = false ->
  trimmed (c :: s ++ [d]).
Proof.
  intros Hc Hd. unfold trimmed, PyStr.strip.
  rewrite (@StripFacts.lstrip_fixed c _ Hc).
  change (c :: s ++ [d]) with ((c :: s) ++ [d]).
  apply rstrip_snoc. exact Hd.
Qed.

Lemma strip_full_name (given family : pystr) :
  trimmed given -> trimmed family ->
  PyStr.strip (given ++ str " " ++ family) = full_name given family.
Proof.
  intros Hg Hf. change (str " ") with [32%N].
  destruct given as [|c g].
  - (* no given name: the space goes with the left strip *)
    simpl. unfold PyStr.strip. simpl PyStr.lstrip.
    exact Hf.
  - pose proof (StripFacts.trimmed_head Hg) as Hc.
    destruct family as [|d f] using rev_ind.
    + (* no family name: the space goes with the right strip *)
      simpl full_name. rewrite app_nil_r. unfold PyStr.strip.
      change (c :: g) with ([c] ++ g). rewrite <- app_assoc.
      simpl app. rewrite (@StripFacts.lstrip_fixed c _ Hc).
      change (c :: g ++ [32%N]) with ((c :: g) ++ [32%N]).
      rewrite rstrip_snoc_space by reflexivity.
      unfold trimmed, PyStr.strip in Hg.
      rewrite (@StripFacts.lstrip_fixed c _ Hc) in Hg. exact Hg.
    + clear IHf. pose proof (@trimmed_last f d Hf) as Hd.
      assert (E : full_name (c :: g) (f ++ [d])
                  = (c :: g) ++ [32%N] ++ f ++ [d]).
      { simpl. destruct (f ++ [d]) eqn:Ef; [|reflexivity].
        destruct f; discriminate. }
      rewrite E.
      replace ((c :: g) ++ [32%N] ++ f ++ [d])
        with (c :: (g ++ [32%N] ++ f) ++ [d])
        by (simpl; rewrite <- !app_assoc; reflexivity).
      apply trimmed_ends; assumption.
Qed.

End FullNameFacts.

(** X18: for users whose given and family names are trimmed, as those of
    every loaded user are, the full name of a joined row is the given
    name, a space and the family name, or the one of the two that is not
    empty, with no space left over. *)
Theorem full_name_of_row (courses : list Course.t) (users : list User.t)
    (enrollments : list Enrollment.t) (row : Row.t) :
  Forall (fun u => trimmed (UserName.given (User.name u))
                   /\ trimmed (UserName.family (User.name u))) users ->
  In row (joined_rows courses users enrollments) ->
  Row.userFullName row = full_name (Row.given row) (Row.family row).
Proof.
  intros Hall Hin. apply In_joined_rows in Hin.
  destruct Hin as (e & u & c & _ & Hu & _ & _ & _ & ->).
  rewrite Forall_forall in Hall. destruct (Hall u Hu) as [Hg Hf].
  simpl. apply FullNameFacts.strip_full_name; assumption.
Qed.

Lemma full_name_of_row_witness :
  Row.userFullName (row_of Sample.enrollment1 Sample.user1 Sample.course1)
  = full_name (str "Ina") (str "Structor").
Proof.
  apply (@full_name_of_row Sample.courses Sample.users Sample.enrollments).
  - repeat constructor; vm_compute; reflexivity.
  - left. reflexivity.
Defined.

(** X19: the handler of the command does not catch what normalization
    raises on a record that is not an object: when the first record of
    courses.json is a number, a boolean or null the command ends with an
    uncaught TypeError, and when it is an object whose availability is a
    value that is true in Python without being an object, with an uncaught
    AttributeError, in both cases with nothing logged or written. *)
Theorem malformed_record_is_uncaught (env : environment) (files : directory)
    (data_dir out_dir : pystr) (course_filter : option pystr)
    (include_instructors include_students only_available : bool)
    (w : world) (item : json) (rest : list json) :
  files (str "courses.json") = Parsed (JArr (item :: rest)) ->
  (scalar item ->
   generate env files data_dir out_dir course_filter include_instructors
     include_students only_available w = (w, Uncaught TypeError))
  /\ (forall m v,
        item = JObj m ->
        Dict.lookup (Dict.of_members m) (Dict.KStr (str "availability"))
        = Some v ->
        (forall a, v <> JObj a) -> truthy v = true ->
        generate env files data_dir out_dir course_filter include_instructors
          include_students only_available w = (w, Uncaught AttributeError)).
Proof.
  intros Hf.
  assert (Hrun : forall exc, normalize item = Raise exc ->
            generate_report env files data_dir out_dir course_filter
              include_instructors include_students only_available w
            = (w, Raise exc)).
  { intros exc Hn. unfold generate_report, io_bind, lift, load_courses,
      _read_json_array. rewrite Hf. cbn [bind map_result]. rewrite Hn.
    reflexivity. }
  split.
  - intros Hs. unfold generate. rewrite (Hrun TypeError); [reflexivity|].
    destruct item; try contradiction; reflexivity.
  - intros m v -> Hv Hobj Ht. unfold generate.
    rewrite (Hrun AttributeError); [reflexivity|].
    unfold normalize, raw_available, Dict.get. cbn [Dict.dict bind].
    rewrite Hv, Ht.
    destruct v as [ | b | z | f | s | l | a]; try reflexivity.
    exfalso. exact (Hobj a eq_refl).
Qed.

Lemma malformed_record_is_uncaught_witness :
  generate Sample.with_template (array_file [JInt 5]) (str "data") (str "out")
    None true true false Sample.fresh
  = (Sample.fresh, Uncaught TypeError).
Proof.
  apply (proj1 (@malformed_record_is_uncaught Sample.with_template
                  (array_file [JInt 5]) (str "data") (str "out") None true
                  true false Sample.fresh (JInt 5) [] eq_refl)).
  exact I.
Defined.

(** ** Text that cannot be encoded *)

(** X20: a run whose rows hold a text that UTF-8 cannot encode, a lone
    surrogate, ends in the handler with exit code 1 after it has created
    the output directory and opened the CSV file, which keeps the header
    and the lines before the first one that cannot be encoded; neither
    the report nor the audit is written. *)
Theorem unencodable_row_leaves_partial_csv (env : environment)
    (files : directory) (data_dir out_dir : pystr)
    (course_filter : option pystr)
    (include_instructors include_students only_available : bool)
    (w : world) (cs : list Course.t) (us : list User.t) (lg : log)
    (es : list Enrollment.t) (df : list Row.t) :
  load_courses files = Ok cs ->
  load_users files = Ok us ->
  load_enrollments files = (lg, Ok es) ->
  _apply_filters (re_compile env) (joined_rows cs us es) course_filter
    include_instructors include_students only_available = Ok df ->
  forallb (forallb cell_encodable) (map csv_line df) = false ->
  generate env files data_dir out_dir course_filter include_instructors
    include_students only_available w
  = ({| logged := logged w ++ lg;
        out_dir_exists := true;
        out_files :=
          (str "enrollment_report.csv",
           CsvFile {| columns := csv_columns;
                      records := encodable_lines (map csv_line df) |})
          :: out_files w |},
     Exit1 UnicodeEncodeError).
Proof.
  intros Hc Hu He Hf Henc. unfold generate. run_steps.
  rewrite Hc, Hu, He. cbn [fst snd].
  match goal with
  | |- context [_apply_filters _ ?J] =>
      change J with (joined_rows cs us es)
  end.
  rewrite Hf. cbn [fst snd].
  change (fold_left (fun frame col => map_column frame col yes_no)
            [str "enrollmentAvailable"; str "userAvailable";
             str "courseAvailable"] (_prepare_csv df))
    with (csv_of df).
  rewrite csv_of_lines. cbn [columns records].
  change (forallb PyStr.encodable csv_columns) with true. cbv iota.
  rewrite Henc. reflexivity.
Qed.

Lemma unencodable_row_leaves_partial_csv_witness :
  generate Sample.with_template surrogate_files (str "data") (str "out")
    None true true false Sample.fresh
  = ({| logged := [];
        out_dir_exists := true;
        out_files :=
          [(str "enrollment_report.csv",
            CsvFile {| columns := csv_columns; records := [] |})] |},
     Exit1 UnicodeEncodeError).
Proof.
  rewrite (@unencodable_row_leaves_partial_csv Sample.with_template
             surrogate_files (str "data") (str "out") None true true false
             Sample.fresh
             [{| Course.id := str "_c1_1"; Course.courseId := str "CS101-2025FA";
                 Course.name := [55296%N]; Course.description := None;
                 Course.availability := Sample.available true |}]
             [Sample.user1] [] [Sample.enrollment1]
             (joined_rows
                [{| Course.id := str "_c1_1";
                    Course.courseId := str "CS101-2025FA";
                    Course.name := [55296%N]; Course.description := None;
                    Course.availability := Sample.available true |}]
                [Sample.user1] [Sample.enrollment1]));
    vm_compute; reflexivity.
Defined.

(** ** Paths *)




